(** * AgenteRL: the filtering, derived-metrics and aggregation pipeline of app.py

    A shallow embedding of the pandas pipeline of [src/app.py]: the loader
    [fetch_df], the filter [apply_filters], the field picker
    [pick_by_action], the options and the range of dates of the sidebar
    (lines 74-78), the derived columns (lines 89-92), the home KPIs
    (lines 97-103), the backtest block (lines 160-181) and the series of
    the bankroll tab (lines 187-193).  The explorer and the value tab
    (lines 120-153), which select and sort columns for display, are left
    out, as is what Streamlit draws.

    Modelling decisions.
    - A Firestore document is a finite map from field names to cells.  A cell
      is a string, a number, a boolean, a timestamp, or one of the two
      missing markers of pandas (NaN, NaT).  Explicit nulls, arrays and
      nested maps are not modelled.
    - Numbers are rationals: float64 rounding, infinities and overflow are
      abstracted away, so sums and quotients are exact.
    - A DataFrame is its set of column labels and its list of rows; a row
      that lacks a label of the frame reads as NaN there, which is what
      [pd.DataFrame(list_of_dicts)] builds.
    - Python exceptions are values of [exn], threaded by the [res] monad.
    - pandas is taken at its 1.x/2.x behaviour: [astype(str)] renders a
      missing cell as the text "nan".
    - [str.upper] is modelled on ASCII letters; other characters are left
      unchanged. *)

From Stdlib Require Import ZArith QArith Qminmax Ascii String Permutation Sorted Lia.
From stdpp Require Import base option list strings gmap.

#[local] Set Warnings "-clear-no-such-hyp".

Local Open Scope string_scope.
Local Open Scope Z_scope.

(** ** Cells and exceptions *)

Inductive cell : Type :=
| CNaN                       (* float('nan'): an empty or uncoercible cell *)
| CNaT                       (* pd.NaT: an unparseable date *)
| CBool (b : bool)
| CNum (q : Q)
| CStr (s : string)
| CDate (d : Z).             (* pd.Timestamp at midnight, as days since 1970-01-01 *)

Inductive exn : Type :=
| KeyError (key : string)
| TypeError
| IndexError.

Inductive res (A : Type) : Type :=
| Ok (a : A)
| Raise (e : exn).
Arguments Ok {A} a.
Arguments Raise {A} e.

#[global] Instance res_ret : MRet res := fun A a => Ok a.
#[global] Instance res_bind : MBind res := fun A B f m =>
  match m with
  | Ok a => f a
  | Raise e => Raise e
  end.

Definition raises {A} (m : res A) : bool :=
  match m with Ok _ => false | Raise _ => true end.

(** pandas' [isna]. *)
Definition isna (c : cell) : bool :=
  match c with
  | CNaN | CNaT => true
  | _ => false
  end.

(** ** Strings: [str.upper] on ASCII *)

Definition upper_ascii (a : ascii) : ascii :=
  let n := N_of_ascii a in
  if ((97 <=? n) && (n <=? 122))%N then ascii_of_N (n - 32) else a.

Fixpoint upper (s : string) : string :=
  match s with
  | EmptyString => EmptyString
  | String a s' => String (upper_ascii a) (upper s')
  end.

(** ** Calendar dates: [pd.to_datetime(_, format="%Y-%m-%d", errors="coerce")] *)

Definition is_leap (y : Z) : bool :=
  ((y mod 4 =? 0) && negb (y mod 100 =? 0)) || (y mod 400 =? 0).

Definition days_in_month (y m : Z) : Z :=
  if m =? 2 then (if is_leap y then 29 else 28)
  else if (m =? 4) || (m =? 6) || (m =? 9) || (m =? 11) then 30
  else 31.

(** Days since 1970-01-01 of a proleptic Gregorian date. *)
Definition days_from_civil (y m d : Z) : Z :=
  let y' := if m <=? 2 then y - 1 else y in
  let era := y' / 400 in
  let yoe := y' - era * 400 in
  let mp := (m + 9) mod 12 in
  let doy := (153 * mp + 2) / 5 + d - 1 in
  let doe := yoe * 365 + yoe / 4 - yoe / 100 + doy in
  era * 146097 + doe - 719468.

Definition digit_of (a : ascii) : option Z :=
  let n := N_of_ascii a in
  if ((48 <=? n) && (n <=? 57))%N then Some (Z.of_N n - 48) else None.

Fixpoint digits_val (acc : Z) (l : list ascii) : option Z :=
  match l with
  | [] => Some acc
  | a :: l' =>
      match digit_of a with
      | Some v => digits_val (10 * acc + v) l'
      | None => None
      end
  end.

(** nanosecond Timestamps span 1677-09-22 .. 2262-04-11 at midnight *)
Definition ts_min : Z := -106751.
Definition ts_max : Z := 106751.

Definition strptime_ymd (s : string) : option Z :=
  match list_ascii_of_string s with
  | [y1; y2; y3; y4; sep1; m1; m2; sep2; d1; d2] =>
      if (Ascii.eqb sep1 "-" && Ascii.eqb sep2 "-")%bool then
        match digits_val 0 [y1; y2; y3; y4], digits_val 0 [m1; m2], digits_val 0 [d1; d2] with
        | Some y, Some m, Some d =>
            if ((1 <=? m) && (m <=? 12) && (1 <=? d) && (d <=? days_in_month y m))%bool
            then
              let t := days_from_civil y m d in
              if ((ts_min <=? t) && (t <=? ts_max))%bool then Some t else None
            else None
        | _, _, _ => None
        end
      else None
  | _ => None
  end.

(** ** DataFrames *)

Record DataFrame : Type := mkDF {
  columns : gset string;
  rows : list (gmap string cell)
}.

(** The cell of a row under a label of its frame. *)
Definition cell_at (r : gmap string cell) (c : string) : cell :=
  default CNaN (r !! c).

(** [pd.DataFrame(rows)]: the labels are the union of the keys. *)
Definition frame_of (rs : list (gmap string cell)) : DataFrame :=
  {| columns := ⋃ (dom <$> rs); rows := rs |}.

(** [df[c]] *)
Definition getcol (df : DataFrame) (c : string) : res (list cell) :=
  if decide (c ∈ columns df) then Ok ((fun r => cell_at r c) <$> rows df)
  else Raise (KeyError c).

(** [df[c] = vals], for [vals] aligned with the rows of [df] *)
Definition setcol (df : DataFrame) (c : string) (vals : list cell) : DataFrame :=
  {| columns := {[c]} ∪ columns df;
     rows := zip_with (fun r v => <[c := v]> r) (rows df) vals |}.

(** [df[mask]], for a boolean mask aligned with the rows of [df] *)
Fixpoint select {A} (l : list A) (mask : list bool) : list A :=
  match l, mask with
  | x :: l', b :: mask' => if b then x :: select l' mask' else select l' mask'
  | _, _ => []
  end.

Definition df_mask (df : DataFrame) (mask : list bool) : DataFrame :=
  {| columns := columns df; rows := select (rows df) mask |}.

Fixpoint traverse {A B} (f : A -> res B) (l : list A) : res (list B) :=
  match l with
  | [] => Ok []
  | x :: l' => y ← f x; ys ← traverse f l'; Ok (y :: ys)
  end.

(** ** Ordering of cells, as [sort_values] and [groupby] see them

    Present values come before missing ones ([na_position="last"]).  Among
    present values of one kind the order is the natural one; numbers sort
    before text in a column that mixes them. *)

Definition cell_rank (c : cell) : Z :=
  match c with
  | CBool _ | CNum _ => 0
  | CDate _ => 1
  | CStr _ => 2
  | CNaN | CNaT => 3
  end.

Definition Q_of_bool (b : bool) : Q := if b then 1%Q else 0%Q.

(** The value a cell is compared by within its kind. *)
Definition cell_num (c : cell) : Q :=
  match c with
  | CNum q => q
  | CBool b => Q_of_bool b
  | CDate d => inject_Z d
  | _ => 0%Q
  end.

Definition cell_text (c : cell) : string :=
  match c with
  | CStr s => s
  | _ => ""
  end.

Definition lex (o1 o2 : comparison) : comparison :=
  match o1 with
  | Eq => o2
  | _ => o1
  end.

Definition cell_cmp (a b : cell) : comparison :=
  lex (cell_rank a ?= cell_rank b)%Z
      (lex (cell_num a ?= cell_num b)%Q (String.compare (cell_text a) (cell_text b))).

(** Lexicographic comparison of two rows on the labels [by]. *)
Fixpoint row_cmp (by_ : list string) (r1 r2 : gmap string cell) : comparison :=
  match by_ with
  | [] => Eq
  | c :: by' =>
      lex (cell_cmp (cell_at r1 c) (cell_at r2 c)) (row_cmp by' r1 r2)
  end.

Definition row_leb (by_ : list string) (r1 r2 : gmap string cell) : bool :=
  match row_cmp by_ r1 r2 with Gt => false | _ => true end.

(** A stable sort by insertion: an element goes before the first element
    that is not smaller, so equal keys keep their input order. *)
Fixpoint insert_by {A} (leb : A -> A -> bool) (x : A) (l : list A) : list A :=
  match l with
  | [] => [x]
  | y :: l' => if leb x y then x :: y :: l' else y :: insert_by leb x l'
  end.

Definition sort_by {A} (leb : A -> A -> bool) (l : list A) : list A :=
  foldr (insert_by leb) [] l.

(** [df.sort_values(by, ascending=True, na_position="last")] *)
Definition sort_values (df : DataFrame) (by_ : list string) : res DataFrame :=
  _ ← traverse (getcol df) by_;
  Ok {| columns := columns df; rows := sort_by (row_leb by_) (rows df) |}.

(** ** Numeric and date views of a column *)

(** A cell of a datetime column: its timestamp, or nothing for NaT. *)
Definition ts_of (c : cell) : res (option Z) :=
  match c with
  | CDate d => Ok (Some d)
  | CNaT | CNaN => Ok None
  | _ => Raise TypeError
  end.

(** A cell of a numeric column: its value, or nothing for NaN.  [TypeError]
    stands for the behaviour of pandas on a cell that is not a number. *)
Definition num_of (c : cell) : res (option Q) :=
  match c with
  | CNum q => Ok (Some q)
  | CBool b => Ok (Some (Q_of_bool b))
  | CNaN | CNaT => Ok None
  | _ => Raise TypeError
  end.

Definition Qsum (l : list Q) : Q := fold_left Qplus l 0%Q.

(** [s.fillna(0).sum()] *)
Definition fillna0_sum (s : list cell) : res Q :=
  vs ← traverse num_of s;
  Ok (Qsum (default 0%Q <$> vs)).

(** [s.sum()] of a group: missing cells are skipped *)
Definition nansum (s : list cell) : res Q :=
  vs ← traverse num_of s;
  Ok (Qsum (omap id vs)).

Definition Qmax_list (l : list Q) : option Q :=
  match l with
  | [] => None
  | x :: l' => Some (fold_left Qmax l' x)
  end.

Definition Zmin_list (l : list Z) : option Z :=
  match l with
  | [] => None
  | x :: l' => Some (fold_left Z.min l' x)
  end.

Definition Zmax_list (l : list Z) : option Z :=
  match l with
  | [] => None
  | x :: l' => Some (fold_left Z.max l' x)
  end.

(** [df["date"].min()] and [df["date"].max()] (lines 77-78): missing dates
    are skipped; [None] is NaT. *)
Definition min_date (df : DataFrame) : res (option Z) :=
  s ← getcol df "date"; ds ← traverse ts_of s; Ok (Zmin_list (omap id ds)).

Definition max_date (df : DataFrame) : res (option Z) :=
  s ← getcol df "date"; ds ← traverse ts_of s; Ok (Zmax_list (omap id ds)).

(** A row handed to a function by [df.apply(f, axis=1)]: a Series indexed
    by the labels of the frame.  [row.get(key)] yields Python's None, here
    [None], when the label is not in the index. *)
Definition Series : Type := gset string * gmap string cell.

Definition series_get (row : Series) (key : string) : option cell :=
  if decide (key ∈ row.1) then Some (cell_at row.2 key) else None.

Definition df_apply {B} (f : Series -> B) (df : DataFrame) : list B :=
  (fun r => f (columns df, r)) <$> rows df.

(** A result of [pick_by_action] stored in a column: None becomes a
    missing cell. *)
Definition cell_of_option (o : option cell) : cell := default CNaN o.

(** Python's renderings of a float and of a Timestamp as text, and the
    parser of [pd.to_numeric] on text, are left uninterpreted. *)
Record Python : Type := mkPython {
  float_repr : Q -> string;
  timestamp_repr : Z -> string;
  float_of_string : string -> option Q
}.

Section Pipeline.

Context (py : Python).

(** [str(x)] *)
Definition py_str (c : cell) : string :=
  match c with
  | CNaN => "nan"
  | CNaT => "NaT"
  | CBool true => "True"
  | CBool false => "False"
  | CNum q => float_repr py q
  | CStr s => s
  | CDate d => timestamp_repr py d
  end.

(** [s.astype(str).str.upper()], cell by cell *)
Definition str_upper (c : cell) : string := upper (py_str c).

(** *** fetch_df (lines 31-47) *)

(** [pd.to_datetime(_, format="%Y-%m-%d", errors="coerce")] on a cell *)
Definition to_datetime (c : cell) : cell :=
  match c with
  | CNaN | CNaT => CNaT
  | CDate d => CDate d
  | _ => match strptime_ymd (py_str c) with
         | Some d => CDate d
         | None => CNaT
         end
  end.

(** [pd.to_numeric(_, errors="coerce")] on a cell *)
Definition to_numeric (c : cell) : cell :=
  match c with
  | CNum q => CNum q
  | CBool b => CNum (Q_of_bool b)
  | CStr s => match float_of_string py s with
              | Some q => CNum q
              | None => CNaN
              end
  | _ => CNaN
  end.

Definition numeric_columns : list string :=
  ["cb_stake"; "cb_pnl"; "cb_bank_after"; "cb_dd_after"].

Definition coerce_numeric (df : DataFrame) (c : string) : DataFrame :=
  if decide (c ∈ columns df)
  then setcol df c ((fun r => to_numeric (cell_at r c)) <$> rows df)
  else df.

(** The documents of the collection come as (id, fields) pairs. *)
Definition fetch_df (docs : list (string * gmap string cell)) : res DataFrame :=
  let rows := (fun d => <["_doc_id" := CStr d.1]> d.2) <$> docs in
  let df := frame_of rows in
  dates ← getcol df "date";
  let df := setcol df "date" (to_datetime <$> dates) in
  Ok (fold_left coerce_numeric numeric_columns df).

(** *** apply_filters (lines 49-56) *)

Definition eq_str (s : string) (c : cell) : bool :=
  match c with
  | CStr t => String.eqb t s
  | _ => false
  end.

Definition in_range (lo hi : Z) (d : option Z) : bool :=
  match d with
  | Some t => (lo <=? t) && (t <=? hi)
  | None => false
  end.

Definition apply_filters (df : DataFrame) (league : string)
    (date_from date_to : Z) (cb_action : string) : res DataFrame :=
  out ← (if String.eqb league "ALL" then Ok df
         else s ← getcol df "league"; Ok (df_mask df (eq_str league <$> s)));
  out ← (if String.eqb cb_action "ALL" then Ok out
         else s ← getcol out "cb_action";
              Ok (df_mask out ((fun c => String.eqb (str_upper c) cb_action) <$> s)));
  s ← getcol out "date";
  ds ← traverse ts_of s;
  let out := df_mask out (in_range date_from date_to <$> ds) in
  sort_values out ["date"; "dia_id"].

(** *** pick_by_action (lines 58-63) *)

(** [str(row.get("cb_action", "")).upper()] *)
Definition row_action (row : Series) : string :=
  upper (match series_get row "cb_action" with
         | Some c => py_str c
         | None => ""
         end).

Definition pick_by_action (row : Series) (prefix : string) : option cell :=
  let a := row_action row in
  if String.eqb a "H" then series_get row (prefix ++ "_H")
  else if String.eqb a "D" then series_get row (prefix ++ "_D")
  else if String.eqb a "A" then series_get row (prefix ++ "_A")
  else None.

(** *** Derived columns (lines 89-92) *)

Definition is_bet (c : cell) : bool := negb (String.eqb (str_upper c) "NO_BET").

Definition bool_of (c : cell) : res bool :=
  match c with
  | CBool b => Ok b
  | _ => Raise TypeError
  end.

(** Returns the filtered frame with its [is_bet] column and the frame of
    bets with its [ev_cb] and [edge_cb] columns. *)
Definition derive (df_f : DataFrame) : res (DataFrame * DataFrame) :=
  s ← getcol df_f "cb_action";
  let df_f := setcol df_f "is_bet" (CBool ∘ is_bet <$> s) in
  m ← getcol df_f "is_bet";
  mask ← traverse bool_of m;
  let df_bets := df_mask df_f mask in
  let df_bets := setcol df_bets "ev_cb"
    (cell_of_option <$> df_apply (fun r => pick_by_action r "ev") df_bets) in
  let df_bets := setcol df_bets "edge_cb"
    (cell_of_option <$> df_apply (fun r => pick_by_action r "edge") df_bets) in
  Ok (df_f, df_bets).

(** The row of [df_f] with its [is_bet] flag. *)
Definition with_is_bet (r : gmap string cell) : gmap string cell :=
  <["is_bet" := CBool (is_bet (cell_at r "cb_action"))]> r.

(** The row of [df_bets] with its two picked values; [cols] are the labels
    of the frame before the two assignments. *)
Definition with_picks (cols : gset string) (r : gmap string cell) : gmap string cell :=
  let r1 := <["ev_cb" := cell_of_option (pick_by_action (cols, r) "ev")]> r in
  <["edge_cb" := cell_of_option (pick_by_action ({["ev_cb"]} ∪ cols, r1) "edge")]> r1.

End Pipeline.

Section Aggregator.

Context (py : Python).

(** *** Home KPIs (lines 97-103) *)

Definition matches (df_f : DataFrame) : nat := length (rows df_f).
Definition bets (df_bets : DataFrame) : nat := length (rows df_bets).

Definition stake_total (df_bets : DataFrame) : res Q :=
  if Nat.eqb (bets df_bets) 0 then Ok 0%Q
  else s ← getcol df_bets "cb_stake"; fillna0_sum s.

Definition pnl_total (df_bets : DataFrame) : res Q :=
  if Nat.eqb (bets df_bets) 0 then Ok 0%Q
  else s ← getcol df_bets "cb_pnl"; fillna0_sum s.

Definition roi_simple (pnl_total stake_total : Q) : Q :=
  if negb (Qle_bool stake_total 0) then (pnl_total / stake_total)%Q else 0%Q.

Definition dropna (s : list cell) : list cell :=
  filter (fun c => isna c = false) s.

(** [s.dropna().iloc[-1] if s.notna().any() else None] *)
Definition bank_final (df_f : DataFrame) : res (option cell) :=
  s ← getcol df_f "cb_bank_after";
  if existsb (fun c => negb (isna c)) s
  then match last (dropna s) with
       | Some c => Ok (Some c)
       | None => Raise IndexError
       end
  else Ok None.

(** [s.dropna().max() if s.notna().any() else None] *)
Definition max_dd (df_f : DataFrame) : res (option Q) :=
  s ← getcol df_f "cb_dd_after";
  if existsb (fun c => negb (isna c)) s
  then vs ← traverse num_of (dropna s); Ok (Qmax_list (omap id vs))
  else Ok None.

Record KPIs : Type := mkKPIs {
  k_matches : nat;
  k_bets : nat;
  k_stake_total : Q;
  k_pnl_total : Q;
  k_roi_simple : Q;
  k_bank_final : option cell;
  k_max_dd : option Q
}.

Definition home_kpis (df_f df_bets : DataFrame) : res KPIs :=
  st ← stake_total df_bets;
  pn ← pnl_total df_bets;
  bf ← bank_final df_f;
  dd ← max_dd df_f;
  Ok {| k_matches := matches df_f; k_bets := bets df_bets;
        k_stake_total := st; k_pnl_total := pn;
        k_roi_simple := roi_simple pn st;
        k_bank_final := bf; k_max_dd := dd |}.

(** *** Backtest (lines 160-181) *)

Definition str_leb (a b : string) : bool :=
  match String.compare a b with Gt => false | _ => true end.

Fixpoint uniq (l : list string) : list string :=
  match l with
  | [] => []
  | x :: l' => if decide (x ∈ l') then uniq l' else x :: uniq l'
  end.

(** [pd.crosstab(a, b, dropna=False)]: the sorted labels of both axes and
    the count of every pair. *)
Record Crosstab : Type := mkCrosstab {
  ct_index : list string;
  ct_columns : list string;
  ct_count : string -> string -> nat
}.

Definition pair_count (ps : list (string * string)) (a b : string) : nat :=
  length (filter (fun p => p = (a, b)) ps).

Definition crosstab (a b : list string) : Crosstab :=
  {| ct_index := sort_by str_leb (uniq a);
     ct_columns := sort_by str_leb (uniq b);
     ct_count := pair_count (zip a b) |}.

Definition conf (df_bets : DataFrame) : res Crosstab :=
  a ← getcol df_bets "cb_action";
  r ← getcol df_bets "result";
  Ok (crosstab (str_upper py <$> a)
               (str_upper py <$> r)).

Definition hit (a r : cell) : bool :=
  String.eqb (str_upper py a)
             (str_upper py r).

Definition mean_bool (l : list bool) : option Q :=
  match l with
  | [] => None
  | _ => Some (inject_Z (Z.of_nat (length (filter (fun b => b = true) l)))
               / inject_Z (Z.of_nat (length l)))%Q
  end.

(** The mean of the comparison; [None] is the NaN of an empty mean. *)
Definition hit_rate (df_bets : DataFrame) : res (option Q) :=
  a ← getcol df_bets "cb_action";
  r ← getcol df_bets "result";
  Ok (mean_bool (zip_with hit a r)).

Record LeagueRow : Type := mkLeagueRow {
  lg_league : cell;
  lg_bets : nat;
  lg_stake_total : Q;
  lg_pnl_total : Q;
  lg_ev_sum : Q;
  lg_roi_simple : Q
}.

Definition same_key (k c : cell) : bool :=
  match cell_cmp k c with Eq => true | _ => false end.

Fixpoint uniq_keys (l : list cell) : list cell :=
  match l with
  | [] => []
  | k :: l' => if existsb (same_key k) l' then uniq_keys l' else k :: uniq_keys l'
  end.

Definition cell_leb (a b : cell) : bool :=
  match cell_cmp a b with Gt => false | _ => true end.

(** The truth value of a float: nonzero. *)
Definition truthy (q : Q) : bool := negb (Qeq_bool q 0).

Definition league_row (df_bets : DataFrame) (k : cell) : res LeagueRow :=
  let g := filter (fun r => same_key k (cell_at r "league") = true) (rows df_bets) in
  st ← nansum ((fun r => cell_at r "cb_stake") <$> g);
  pn ← nansum ((fun r => cell_at r "cb_pnl") <$> g);
  ev ← nansum ((fun r => cell_at r "ev_cb") <$> g);
  Ok {| lg_league := k; lg_bets := length g;
        lg_stake_total := st; lg_pnl_total := pn; lg_ev_sum := ev;
        lg_roi_simple := if truthy st then (pn / st)%Q else 0%Q |}.

(** [groupby("league", dropna=False).agg(...)] with the [roi_simple]
    column of line 181: one row per distinct league, missing leagues
    grouped together, in the order of the keys. *)
Definition by_league (df_bets : DataFrame) : res (list LeagueRow) :=
  lg ← getcol df_bets "league";
  _ ← traverse (getcol df_bets) ["cb_action"; "cb_stake"; "cb_pnl"; "ev_cb"];
  traverse (league_row df_bets) (sort_by cell_leb (uniq_keys lg)).

Record Backtest : Type := mkBacktest {
  b_conf : Crosstab;
  b_hit_rate : option Q;
  b_by_league : list LeagueRow
}.

(** The body of the backtest tab; [None] is the branch that only shows the
    "no bets" notice. *)
Definition backtest (df_bets : DataFrame) : res (option Backtest) :=
  if Nat.eqb (bets df_bets) 0 then Ok None
  else
    c ← conf df_bets;
    h ← hit_rate df_bets;
    t ← by_league df_bets;
    Ok (Some {| b_conf := c; b_hit_rate := h; b_by_league := t |}).

(** *** The script from line 86 on, for a loaded frame and the selections
    of the sidebar *)

Record Dashboard : Type := mkDashboard {
  d_df_f : DataFrame;
  d_df_bets : DataFrame;
  d_kpis : KPIs;
  d_backtest : option Backtest
}.

Definition dashboard (df : DataFrame) (league : string) (date_from date_to : Z)
    (cb_action : string) : res Dashboard :=
  df_f ← apply_filters py df league date_from date_to cb_action;
  d ← derive py df_f;
  k ← home_kpis d.1 d.2;
  b ← backtest d.2;
  Ok {| d_df_f := d.1; d_df_bets := d.2; d_kpis := k; d_backtest := b |}.

End Aggregator.

(** ** The sidebar (lines 74-78) and the bankroll tab (lines 187-193) *)

(** [s.unique()]: the values in the order of their first occurrence. *)
Fixpoint unique_from {A} (eqb : A -> A -> bool) (seen l : list A) : list A :=
  match l with
  | [] => []
  | x :: l' =>
      if existsb (eqb x) seen then unique_from eqb seen l'
      else x :: unique_from eqb (x :: seen) l'
  end.

Definition unique {A} (eqb : A -> A -> bool) (l : list A) : list A :=
  unique_from eqb [] l.

(** Python's [sorted] on present cells: text, numbers and timestamps sort
    among themselves and do not compare with one another. *)
Definition py_sorted (l : list cell) : res (list cell) :=
  match l with
  | [] => Ok []
  | x :: l' =>
      if forallb (fun y => cell_rank y =? cell_rank x) l' then Ok (sort_by cell_leb l)
      else Raise TypeError
  end.

(** Line 74: the options of the league selector. *)
Definition league_options (df : DataFrame) : res (list cell) :=
  s ← getcol df "league";
  l ← py_sorted (unique same_key (dropna s));
  Ok (CStr "ALL" :: l).

Section Sidebar.

Context (py : Python).

(** Line 75: the options of the action selector. *)
Definition action_options (df : DataFrame) : res (list string) :=
  s ← getcol df "cb_action";
  Ok ("ALL" :: sort_by str_leb (unique String.eqb (str_upper py <$> dropna s))).

End Sidebar.

(** [df.set_index("date")[c]]: the values of column [c] labelled by the
    dates of their rows. *)
Definition series_by_date (df : DataFrame) (c : string) : res (list (cell * cell)) :=
  d ← getcol df "date";
  v ← getcol df c;
  Ok (zip d v).

Record BankrollTab : Type := mkBankrollTab {
  t_bank : option (list (cell * cell));
  t_drawdown : option (list (cell * cell))
}.

(** Lines 187-193: the frame is sorted again and each of the two series is
    charted when its column exists. *)
Definition bankroll_tab (df_f : DataFrame) : res BankrollTab :=
  df_ts ← sort_values df_f ["date"; "dia_id"];
  bank ← (if decide ("cb_bank_after" ∈ columns df_ts)
          then s ← series_by_date df_ts "cb_bank_after"; Ok (Some s)
          else Ok None);
  dd ← (if decide ("cb_dd_after" ∈ columns df_ts)
        then s ← series_by_date df_ts "cb_dd_after"; Ok (Some s)
        else Ok None);
  Ok {| t_bank := bank; t_drawdown := dd |}.

(** * Vocabulary of the properties *)

(** A three-way comparison that behaves as a total preorder. *)
Record preorder_cmp {A} (cmp : A -> A -> comparison) : Prop := {
  cmp_antisym : forall x y, cmp y x = CompOpp (cmp x y);
  cmp_trans : forall x y z, cmp x y <> Gt -> cmp y z <> Gt ->
      cmp x z <> Gt /\ (cmp x z = Eq -> cmp x y = Eq /\ cmp y z = Eq)
}.

(** The order read off a three-way comparison. *)
Definition le_of {A} (cmp : A -> A -> comparison) (x y : A) : Prop := cmp x y <> Gt.

Definition leb_of {A} (cmp : A -> A -> comparison) (x y : A) : bool :=
  match cmp x y with Gt => false | _ => true end.

(** Ascending order on the labels [by_], missing values last. *)
Definition row_le (by_ : list string) : gmap string cell -> gmap string cell -> Prop :=
  le_of (row_cmp by_).

(** Kinds of cells. *)
Definition is_date (c : cell) : bool :=
  match c with CDate _ => true | _ => false end.

Definition date_cell (c : cell) : bool :=
  match c with CDate _ | CNaT => true | _ => false end.

Definition numeric_cell (c : cell) : bool :=
  match c with CNum _ | CNaN => true | _ => false end.

(** The timestamp of a cell of a datetime column, the number of a cell of a
    numeric column. *)
Definition ts_opt (c : cell) : option Z :=
  match c with CDate d => Some d | _ => None end.

Definition num_opt (c : cell) : option Q :=
  match c with CNum q => Some q | _ => None end.

(** Every cell of column [c] satisfies [p]. *)
Definition col_all (p : cell -> bool) (df : DataFrame) (c : string) : Prop :=
  Forall (fun r => p (cell_at r c) = true) (rows df).

(** No row carries a field that is not a label of the frame. *)
Definition wf (df : DataFrame) : Prop :=
  Forall (fun r : gmap string cell => dom r ⊆ columns df) (rows df).

(** What [fetch_df] guarantees about the frame it returns. *)
Record loaded (df : DataFrame) : Prop := {
  loaded_wf : wf df;
  loaded_date : "date" ∈ columns df;
  loaded_dates : col_all date_cell df "date";
  loaded_numeric : Forall (col_all numeric_cell df) numeric_columns
}.

(** [out] has the labels of [df] and only rows of [df]. *)
Definition sub_frame (out df : DataFrame) : Prop :=
  columns out = columns df /\ forall r, r ∈ rows out -> r ∈ rows df.


(** A missing value counts as 0. *)
Definition value_or_zero (c : cell) : Q :=
  match c with CNum q => q | _ => 0%Q end.

(** The sum of column [c] over the rows, a missing value counting as 0. *)
Definition sum_over (rs : list (gmap string cell)) (c : string) : Q :=
  foldr (fun r acc => (value_or_zero (cell_at r c) + acc)%Q) 0%Q rs.




(** The rows of the group of key [k]. *)
Definition group_of (b : DataFrame) (k : cell) : list (gmap string cell) :=
  filter (fun r => same_key k (cell_at r "league") = true) (rows b).

(** What a row of the rollup holds for its group, with the guard of line
    181: the quotient when the stake total is nonzero, else 0. *)
Definition league_row_ok (b : DataFrame) (k : cell) (g : LeagueRow) : Prop :=
  lg_league g = k /\
  lg_bets g = length (group_of b k) /\
  (lg_stake_total g == sum_over (group_of b k) "cb_stake")%Q /\
  (lg_pnl_total g == sum_over (group_of b k) "cb_pnl")%Q /\
  (~ (lg_stake_total g == 0)%Q ->
     lg_roi_simple g = (lg_pnl_total g / lg_stake_total g)%Q) /\
  ((lg_stake_total g == 0)%Q -> lg_roi_simple g = 0%Q) /\
  ((0 <= lg_stake_total g)%Q ->
     lg_roi_simple g = roi_simple (lg_pnl_total g) (lg_stake_total g)).

(** The comparison of line 168 on a row of the frame of bets. *)
Definition row_hit (py : Python) (r : gmap string cell) : bool :=
  hit py (cell_at r "cb_action") (cell_at r "result").

(** The quotient of two counts. *)
Definition ratio (n d : nat) : Q := (inject_Z (Z.of_nat n) / inject_Z (Z.of_nat d))%Q.


(** ** Claims as the spec words them, where the code differs *)

(** The claim as the spec words it: the "ALL" filter over [min, max] returns
    every record of the frame, sorted. *)
Definition all_filter_returns_every_record (py : Python) (df : DataFrame) : Prop :=
  forall lo hi,
    min_date df = Ok (Some lo) -> max_date df = Ok (Some hi) ->
    exists out,
      apply_filters py df "ALL" lo hi "ALL" = Ok out /\
      rows out ≡ₚ rows df /\
      StronglySorted (row_le ["date"; "dia_id"]) (rows out).


(** The claim as the spec words it: every row of the rollup has the ROI
    that the scalar guard gives for its totals. *)
Definition league_guard_as_scalar (t : list LeagueRow) : Prop :=
  Forall (fun g => (lg_roi_simple g == roi_simple (lg_pnl_total g) (lg_stake_total g))%Q) t.



(** ** Vocabulary of the further properties *)

(** The row passes the three selections of [apply_filters]. *)
Definition selected (py : Python) (league : string) (date_from date_to : Z)
    (cb_action : string) (r : gmap string cell) : bool :=
  (String.eqb league "ALL" || eq_str league (cell_at r "league")) &&
  (String.eqb cb_action "ALL" || String.eqb (str_upper py (cell_at r "cb_action")) cb_action) &&
  in_range date_from date_to (ts_opt (cell_at r "date")).

(** The rows that have the sort key of [r0]. *)
Definition same_sort_key (r0 r : gmap string cell) : bool :=
  match row_cmp ["date"; "dia_id"] r r0 with Eq => true | _ => false end.

(** The first column that [apply_filters] would miss, in the order in which
    it reads them. *)
Definition filter_error (df : DataFrame) (league cb_action : string) : option exn :=
  if negb (String.eqb league "ALL") && negb (bool_decide ("league" ∈ columns df))
  then Some (KeyError "league")
  else if negb (String.eqb cb_action "ALL") && negb (bool_decide ("cb_action" ∈ columns df))
  then Some (KeyError "cb_action")
  else if negb (bool_decide ("dia_id" ∈ columns df))
  then Some (KeyError "dia_id")
  else None.

(** The effect of the numeric coercions on a row: [r'] is [r] after the
    columns [cs] of a frame labelled [cols] were coerced. *)
Definition coerced (py : Python) (cols : gset string) (cs : list string)
    (r r' : gmap string cell) : Prop :=
  (forall c, c ∈ cs -> c ∈ cols -> r' !! c = Some (to_numeric py (cell_at r c))) /\
  (forall c, c ∉ cs \/ c ∉ cols -> r' !! c = r !! c).



(** The pair of labels of a bet: its action and its result, as text in
    upper case. *)
Definition labels (py : Python) (r : gmap string cell) : string * string :=
  (str_upper py (cell_at r "cb_action"), str_upper py (cell_at r "result")).

(** The sum of all the cells of a cross table. *)
Definition crosstab_total (c : Crosstab) : nat :=
  sum_list_with (fun a => sum_list_with (fun r => ct_count c a r) (ct_columns c)) (ct_index c).

(** The sum of the cells of a cross table whose row and column carry the
    same label. *)
Definition crosstab_diagonal (c : Crosstab) : nat :=
  sum_list_with (fun a => ct_count c a a) (ct_index c).





(** The values of column [c] paired with the dates of their rows. *)
Definition dated (rs : list (gmap string cell)) (c : string) : list (cell * cell) :=
  (fun r => (cell_at r "date", cell_at r c)) <$> rs.

(** The row has a value in column [c]. *)
Definition present_at (c : string) (r : gmap string cell) : Prop :=
  isna (cell_at r c) = false.

(** * Scenarios *)

(** The records of the scenarios hold no number where the code reads text
    and no text where it reads a number, so the renderings and the parser
    that the model leaves open play no part in them; they are fixed here to
    state closed facts. *)
Definition scenario_py : Python :=
  {| float_repr := fun _ => "<float>";
     timestamp_repr := fun _ => "<timestamp>";
     float_of_string := fun _ => None |}.

(** The loader on the records of a scenario. *)
Definition load (docs : list (string * gmap string cell)) : res DataFrame :=
  fetch_df scenario_py docs.

(** The value of a computation that is known to succeed. *)
Definition frame_or_empty (m : res DataFrame) : DataFrame :=
  match m with
  | Ok df => df
  | Raise _ => frame_of []
  end.

Definition derived_or_empty (m : res (DataFrame * DataFrame)) : DataFrame * DataFrame :=
  match m with
  | Ok p => p
  | Raise _ => (frame_of [], frame_of [])
  end.

Definition ok_value {A} (m : res A) : option A :=
  match m with
  | Ok a => Some a
  | Raise _ => None
  end.

(** Two matches, the second with a date that does not parse (spec 8.7). *)
Definition docs_unparsed : list (string * gmap string cell) :=
  [ ("m1", {[ "date" := CStr "2024-01-01"; "dia_id" := CNum 1; "cb_action" := CStr "H" ]});
    ("m2", {[ "date" := CStr "not-a-date"; "dia_id" := CNum 2; "cb_action" := CStr "H" ]}) ].

Definition df_unparsed : DataFrame := frame_or_empty (load docs_unparsed).

(** The three records, with the fields the spec lists. *)
Definition docs_three : list (string * gmap string cell) :=
  [ ("m1", {[ "date" := CStr "2024-01-01"; "dia_id" := CNum 1; "cb_action" := CStr "H";
              "cb_stake" := CNum 10; "cb_pnl" := CNum 5; "ev_H" := CNum (12 # 100);
              "result" := CStr "H" ]});
    ("m2", {[ "date" := CStr "2024-01-02"; "dia_id" := CNum 1;
              "cb_action" := CStr "NO_BET" ]});
    ("m3", {[ "date" := CStr "2024-01-03"; "dia_id" := CNum 1; "cb_action" := CStr "D";
              "cb_stake" := CNum 10; "cb_pnl" := CNum (-10); "ev_D" := CNum (3 # 100);
              "result" := CStr "A" ]}) ].

(** The frames of the three records with both selectors on "ALL" and the
    full range of dates. *)
Definition df_three : DataFrame := frame_or_empty (load docs_three).

Definition filtered_three : DataFrame :=
  frame_or_empty (apply_filters scenario_py df_three "ALL" 19723 19725 "ALL").

Definition derived_three : DataFrame * DataFrame :=
  derived_or_empty (derive scenario_py filtered_three).

(** The same records with a league and the bankroll columns, so that the
    whole script runs. *)
Definition docs_three_full : list (string * gmap string cell) :=
  (fun d => (d.1, <["league" := CStr "L1"]>
                    (<["cb_bank_after" := CNum 100]> (<["cb_dd_after" := CNum 0]> d.2))))
  <$> docs_three.

Definition df_three_full : DataFrame := frame_or_empty (load docs_three_full).

(** The frames of the completed records with both selectors on "ALL". *)
Definition filtered_three_full : DataFrame :=
  frame_or_empty (apply_filters scenario_py df_three_full "ALL" 19723 19725 "ALL").

Definition derived_three_full : DataFrame * DataFrame :=
  derived_or_empty (derive scenario_py filtered_three_full).

Definition kpis_three_full : option KPIs :=
  d_kpis <$> ok_value (dashboard scenario_py df_three_full "ALL" 19723 19725 "ALL").

Definition backtest_three_full : option Backtest :=
  ok_value (dashboard scenario_py df_three_full "ALL" 19723 19725 "ALL") ≫= d_backtest.



(** One bet, recorded without stake, profit or bankroll fields. *)
Definition docs_bare : list (string * gmap string cell) :=
  [ ("m1", {[ "date" := CStr "2024-01-01"; "dia_id" := CNum 1; "league" := CStr "L1";
              "cb_action" := CStr "H"; "result" := CStr "H" ]}) ].

Definition df_bare : DataFrame := frame_or_empty (load docs_bare).

(** Two matches of one league; the second record has neither cb_action nor
    result. *)
Definition docs_missing_action : list (string * gmap string cell) :=
  [ ("m1", {[ "date" := CStr "2024-01-01"; "dia_id" := CNum 1; "league" := CStr "L1";
              "cb_action" := CStr "H"; "result" := CStr "H";
              "cb_stake" := CNum 10; "cb_pnl" := CNum 5;
              "cb_bank_after" := CNum 105; "cb_dd_after" := CNum 0 ]});
    ("m2", {[ "date" := CStr "2024-01-02"; "dia_id" := CNum 1; "league" := CStr "L1" ]}) ].

Definition df_missing_action : DataFrame := frame_or_empty (load docs_missing_action).




(** One bet of league L1 with a negative stake. *)
Definition docs_negative_stake : list (string * gmap string cell) :=
  [ ("m1", {[ "date" := CStr "2024-01-01"; "dia_id" := CNum 1; "league" := CStr "L1";
              "cb_action" := CStr "H"; "result" := CStr "A";
              "cb_stake" := CNum (-10); "cb_pnl" := CNum 5; "ev_H" := CNum (1 # 10);
              "cb_bank_after" := CNum 105; "cb_dd_after" := CNum 0 ]}) ].

Definition derived_negative_stake : DataFrame * DataFrame :=
  derived_or_empty
    (derive scenario_py
       (frame_or_empty
          (apply_filters scenario_py (frame_or_empty (load docs_negative_stake))
             "ALL" 19723 19723 "ALL"))).



(** ** Scenarios of the further properties *)

(** The completed records filtered on their league and on the action "H". *)
Definition filtered_league_action : DataFrame :=
  frame_or_empty (apply_filters scenario_py df_three_full "L1" 19723 19725 "H").

(** The three records filtered with an action selector in lower case. *)
Definition filtered_lower_case : DataFrame :=
  frame_or_empty (apply_filters scenario_py df_three "ALL" 19723 19725 "h").

(** A sort key: the first match of 2024-01-01. *)
Definition key_first_day : gmap string cell :=
  {[ "date" := CDate 19723; "dia_id" := CNum 1 ]}.

(** The backtest of the completed records, piece by piece. *)
Definition crosstab_or_empty (m : res Crosstab) : Crosstab :=
  match m with
  | Ok c => c
  | Raise _ => crosstab [] []
  end.

Definition conf_three_full : Crosstab :=
  crosstab_or_empty (conf scenario_py derived_three_full.2).

Definition hit_rate_three_full : option Q :=
  match hit_rate scenario_py derived_three_full.2 with
  | Ok h => h
  | Raise _ => None
  end.




(** * Properties *)

Example strptime_epoch : strptime_ymd "1970-01-01" = Some 0.
Proof. reflexivity. Qed.

Example strptime_2024 : strptime_ymd "2024-03-01" = Some 19783.
Proof. reflexivity. Qed.

Example strptime_bad_day : strptime_ymd "2023-02-29" = None.
Proof. reflexivity. Qed.

Example strptime_not_a_date : strptime_ymd "not-a-date" = None.
Proof. reflexivity. Qed.

(** ** The error monad and list helpers *)

Lemma traverse_map_ok {A B} (f : A -> res B) (g : A -> B) (l : list A) :
  Forall (fun x => f x = Ok (g x)) l -> traverse f l = Ok (g <$> l).
Proof.
  induction 1 as [|x l Hx _ IH]; simpl; [reflexivity|].
  rewrite Hx; simpl. rewrite IH; reflexivity.
Qed.

Lemma traverse_fmap_ok {A B C} (f : B -> res C) (h : A -> B) (g : A -> C) (l : list A) :
  Forall (fun x => f (h x) = Ok (g x)) l -> traverse f (h <$> l) = Ok (g <$> l).
Proof.
  induction 1 as [|x l Hx _ IH]; [reflexivity|].
  rewrite !fmap_cons. cbn [traverse]. rewrite Hx, IH. reflexivity.
Qed.

Lemma select_map {A} (p : A -> bool) (l : list A) :
  select l (p <$> l) = filter (fun x => p x = true) l.
Proof.
  induction l as [|x l IH]; simpl; [reflexivity|].
  rewrite filter_cons. destruct (p x) eqn:E.
  - rewrite decide_True by reflexivity. f_equal; exact IH.
  - rewrite decide_False by discriminate. exact IH.
Qed.

Lemma zip_with_map_r {A B C} (g : A -> B -> C) (f : A -> B) (l : list A) :
  zip_with g l (f <$> l) = (fun x => g x (f x)) <$> l.
Proof. induction l as [|x l IH]; simpl; [reflexivity|]. f_equal; exact IH. Qed.

Lemma zip_with_map_both {A B C D} (g : B -> C -> D) (f1 : A -> B) (f2 : A -> C)
    (l : list A) :
  zip_with g (f1 <$> l) (f2 <$> l) = (fun x => g (f1 x) (f2 x)) <$> l.
Proof. induction l as [|x l IH]; simpl; [reflexivity|]. f_equal; exact IH. Qed.

(** ** Comparisons *)

Lemma lex_preorder {A} (c1 c2 : A -> A -> comparison) :
  preorder_cmp c1 -> preorder_cmp c2 ->
  preorder_cmp (fun x y => lex (c1 x y) (c2 x y)).
Proof.
  intros [A1 T1] [A2 T2]. split.
  - intros x y. rewrite A1, A2. destruct (c1 x y); reflexivity.
  - intros x y z Hxy Hyz.
    assert (H1 : c1 x y <> Gt) by (destruct (c1 x y); simpl in Hxy; congruence).
    assert (H2 : c1 y z <> Gt) by (destruct (c1 y z); simpl in Hyz; congruence).
    destruct (T1 x y z H1 H2) as [Hn He].
    destruct (c1 x z) eqn:E; simpl; [|split; congruence|congruence].
    destruct (He eq_refl) as [E1 E2]. rewrite E1 in *; rewrite E2 in *. simpl in *.
    exact (T2 x y z Hxy Hyz).
Qed.

Lemma preorder_on {A B} (f : A -> B) (cmp : B -> B -> comparison) :
  preorder_cmp cmp -> preorder_cmp (fun x y => cmp (f x) (f y)).
Proof. intros [Ha Ht]. split; intros; [apply Ha | apply Ht; assumption]. Qed.

Lemma Z_preorder : preorder_cmp Z.compare.
Proof.
  split.
  - intros x y. apply Z.compare_antisym.
  - intros x y z.
    destruct (Z.compare_spec x y), (Z.compare_spec y z), (Z.compare_spec x z);
      intros; try congruence; try lia; intuition congruence.
Qed.

Lemma Q_preorder : preorder_cmp Qcompare.
Proof.
  split.
  - intros x y. symmetry. apply Qcompare_antisym.
  - intros x y z Hxy Hyz.
    apply Qle_alt in Hxy. apply Qle_alt in Hyz.
    split.
    + apply Qle_alt. eapply Qle_trans; eassumption.
    + intros He. apply Qeq_alt in He. split; apply Qeq_alt; apply Qle_antisym; try assumption.
      * rewrite <- He in Hyz. exact Hyz.
      * rewrite He in Hxy. exact Hxy.
Qed.

Lemma ascii_preorder : preorder_cmp Ascii.compare.
Proof.
  unfold Ascii.compare.
  split.
  - intros x y. apply N.compare_antisym.
  - intros x y z.
    destruct (N.compare_spec (N_of_ascii x) (N_of_ascii y)),
             (N.compare_spec (N_of_ascii y) (N_of_ascii z)),
             (N.compare_spec (N_of_ascii x) (N_of_ascii z));
      intros; try congruence; try lia; intuition congruence.
Qed.

Lemma string_preorder : preorder_cmp String.compare.
Proof.
  split.
  - intros x y. apply String.compare_antisym.
  - intros x. induction x as [|a x IH]; intros [|b y] [|c z]; simpl;
      try congruence; try (intuition congruence).
    intros Hxy Hyz.
    pose proof (cmp_trans _ ascii_preorder a b c) as T.
    assert (H1 : Ascii.compare a b <> Gt) by (destruct (Ascii.compare a b); congruence).
    assert (H2 : Ascii.compare b c <> Gt) by (destruct (Ascii.compare b c); congruence).
    destruct (T H1 H2) as [Hn He].
    destruct (Ascii.compare a c) eqn:E; [|split; congruence|congruence].
    destruct (He eq_refl) as [E1 E2]. rewrite E1 in *; rewrite E2 in *.
    apply IH; assumption.
Qed.

Lemma cell_cmp_preorder : preorder_cmp cell_cmp.
Proof.
  unfold cell_cmp.
  apply (lex_preorder (fun a b => (cell_rank a ?= cell_rank b)%Z)).
  - apply (preorder_on cell_rank), Z_preorder.
  - apply (lex_preorder (fun a b => (cell_num a ?= cell_num b)%Q)).
    + apply (preorder_on cell_num), Q_preorder.
    + apply (preorder_on cell_text), string_preorder.
Qed.

Lemma row_cmp_preorder (by_ : list string) : preorder_cmp (row_cmp by_).
Proof.
  induction by_ as [|c by_ IH]; simpl.
  - split; intros; [reflexivity | intuition congruence].
  - apply (lex_preorder (fun r1 r2 => cell_cmp (cell_at r1 c) (cell_at r2 c))).
    + apply (preorder_on (fun r => cell_at r c)), cell_cmp_preorder.
    + exact IH.
Qed.

(** ** The sort *)

Section Sorting.

Context {A : Type} (cmp : A -> A -> comparison) (Hcmp : preorder_cmp cmp).

Lemma leb_of_true x y : leb_of cmp x y = true <-> le_of cmp x y.
Proof. unfold leb_of, le_of. destruct (cmp x y); split; congruence. Qed.

Lemma le_of_total x y : leb_of cmp x y = false -> le_of cmp y x.
Proof.
  unfold leb_of, le_of. rewrite (cmp_antisym _ Hcmp x y).
  destruct (cmp x y); simpl; congruence.
Qed.

Lemma le_of_trans x y z : le_of cmp x y -> le_of cmp y z -> le_of cmp x z.
Proof. intros H1 H2. exact (proj1 (cmp_trans _ Hcmp x y z H1 H2)). Qed.

Lemma insert_by_perm x l : insert_by (leb_of cmp) x l ≡ₚ x :: l.
Proof.
  induction l as [|y l IH]; simpl; [reflexivity|].
  destruct (leb_of cmp x y); [reflexivity|].
  rewrite IH. apply Permutation_swap.
Qed.

Lemma sort_by_perm l : sort_by (leb_of cmp) l ≡ₚ l.
Proof.
  induction l as [|x l IH]; simpl; [reflexivity|].
  unfold sort_by in *; simpl. rewrite insert_by_perm, IH. reflexivity.
Qed.

Lemma insert_by_sorted x l :
  StronglySorted (le_of cmp) l -> StronglySorted (le_of cmp) (insert_by (leb_of cmp) x l).
Proof.
  induction 1 as [|y l Hs IH Hy]; simpl.
  - constructor; constructor.
  - destruct (leb_of cmp x y) eqn:E.
    + apply leb_of_true in E. constructor.
      * constructor; assumption.
      * constructor; [exact E|].
        eapply Forall_impl; [exact Hy|]. intros z Hz. eapply le_of_trans; eassumption.
    + apply le_of_total in E. constructor; [exact IH|].
      rewrite insert_by_perm. constructor; assumption.
Qed.

Lemma sort_by_sorted l : StronglySorted (le_of cmp) (sort_by (leb_of cmp) l).
Proof.
  induction l as [|x l IH]; [constructor|].
  unfold sort_by in *; simpl. apply insert_by_sorted, IH.
Qed.

End Sorting.

Lemma sort_values_rows df by_ :
  Forall (fun c => c ∈ columns df) by_ ->
  exists out, sort_values df by_ = Ok out /\ columns out = columns df /\
    rows out ≡ₚ rows df /\ StronglySorted (row_le by_) (rows out).
Proof.
  intros Hc. unfold sort_values.
  rewrite (traverse_map_ok _ (fun c => (fun r => cell_at r c) <$> rows df)).
  - simpl. eexists; split; [reflexivity|]. simpl. split; [reflexivity|].
    split.
    + apply (sort_by_perm (row_cmp by_)).
    + apply (sort_by_sorted (row_cmp by_)), row_cmp_preorder.
  - eapply Forall_impl; [exact Hc|]. intros c Hin. unfold getcol.
    rewrite decide_True by exact Hin. reflexivity.
Qed.

(** ** Frames *)

Lemma getcol_ok df c :
  c ∈ columns df -> getcol df c = Ok ((fun r => cell_at r c) <$> rows df).
Proof. intros H. unfold getcol. rewrite decide_True by exact H. reflexivity. Qed.

Lemma getcol_missing df c :
  c ∉ columns df -> getcol df c = Raise (KeyError c).
Proof. intros H. unfold getcol. rewrite decide_False by exact H. reflexivity. Qed.

Lemma cell_at_insert (r : gmap string cell) c v c' :
  cell_at (<[c := v]> r) c' = if decide (c = c') then v else cell_at r c'.
Proof.
  unfold cell_at. destruct (decide (c = c')) as [->|Hne].
  - rewrite lookup_insert_eq. reflexivity.
  - rewrite lookup_insert_ne by exact Hne. reflexivity.
Qed.

Lemma cell_at_insert_ne (r : gmap string cell) c v c' :
  c <> c' -> cell_at (<[c := v]> r) c' = cell_at r c'.
Proof. intros H. rewrite cell_at_insert, decide_False by exact H. reflexivity. Qed.

Lemma cell_at_insert_eq (r : gmap string cell) c v :
  cell_at (<[c := v]> r) c = v.
Proof. rewrite cell_at_insert, decide_True by reflexivity. reflexivity. Qed.

Lemma cell_at_absent (r : gmap string cell) (cols : gset string) c :
  dom r ⊆ cols -> c ∉ cols -> cell_at r c = CNaN.
Proof.
  intros Hd Hc. unfold cell_at.
  destruct (r !! c) eqn:E; [|reflexivity].
  exfalso. apply Hc, Hd. apply elem_of_dom. eauto.
Qed.

Lemma setcol_rows df c (f : gmap string cell -> cell) :
  rows (setcol df c (f <$> rows df)) = (fun r => <[c := f r]> r) <$> rows df.
Proof. unfold setcol; simpl. apply zip_with_map_r. Qed.

Lemma setcol_wf df c (f : gmap string cell -> cell) :
  wf df -> wf (setcol df c (f <$> rows df)).
Proof.
  unfold wf. rewrite setcol_rows. intros H.
  apply Forall_fmap. eapply Forall_impl; [exact H|].
  intros r Hr. simpl. rewrite dom_insert. set_solver by eauto.
Qed.

Lemma setcol_col_other (p : cell -> bool) df c (f : gmap string cell -> cell) c' :
  c <> c' -> col_all p df c' -> col_all p (setcol df c (f <$> rows df)) c'.
Proof.
  intros Hne H. unfold col_all in *. rewrite setcol_rows.
  apply Forall_fmap. eapply Forall_impl; [exact H|].
  intros r Hr. simpl. rewrite cell_at_insert_ne by exact Hne. exact Hr.
Qed.

Lemma setcol_col_same (p : cell -> bool) df c (f : gmap string cell -> cell) :
  (forall r, p (f r) = true) -> col_all p (setcol df c (f <$> rows df)) c.
Proof.
  intros H. unfold col_all. rewrite setcol_rows.
  apply Forall_fmap, Forall_forall. intros r _. simpl.
  rewrite cell_at_insert_eq. apply H.
Qed.

Lemma frame_of_wf rs : wf (frame_of rs).
Proof.
  unfold wf, frame_of; simpl. apply Forall_forall. intros r Hr.
  intros c Hc. apply elem_of_union_list. exists (dom r). split; [|exact Hc].
  apply list_elem_of_fmap. eauto.
Qed.

(** Closes [x ∉ [a; b; ...]] for distinct literals. *)
Ltac not_listed :=
  let H := fresh in
  intros H;
  repeat (apply elem_of_cons in H; destruct H as [H|H]; [discriminate H|]);
  apply elem_of_nil in H; exact H.

Section Loader.

Context (py : Python).

Lemma to_datetime_date_cell c :
  date_cell (to_datetime py c) = true.
Proof.
  destruct c as [| |b|q|s|d]; simpl; try reflexivity;
    match goal with |- context [strptime_ymd ?s] => destruct (strptime_ymd s) end;
    reflexivity.
Qed.

Lemma to_numeric_numeric_cell c :
  numeric_cell (to_numeric py c) = true.
Proof.
  destruct c as [| |b|q|s|d]; simpl; try reflexivity.
  destruct (float_of_string py s); reflexivity.
Qed.

Lemma coerce_numeric_columns df c c' :
  c' ∈ columns (coerce_numeric py df c) <-> c' ∈ columns df.
Proof.
  unfold coerce_numeric. destruct (decide (c ∈ columns df)); simpl; [|reflexivity].
  set_solver.
Qed.

Lemma coerce_numeric_wf df c : wf df -> wf (coerce_numeric py df c).
Proof.
  intros H. unfold coerce_numeric. destruct (decide (c ∈ columns df)); [|exact H].
  apply (setcol_wf df c (fun r => to_numeric py (cell_at r c))), H.
Qed.

Lemma coerce_numeric_other (p : cell -> bool) df c c' :
  c <> c' -> col_all p df c' -> col_all p (coerce_numeric py df c) c'.
Proof.
  intros Hne H. unfold coerce_numeric. destruct (decide (c ∈ columns df)); [|exact H].
  apply (setcol_col_other p df c (fun r => to_numeric py (cell_at r c)));
    assumption.
Qed.

Lemma coerce_numeric_same df c :
  wf df -> col_all numeric_cell (coerce_numeric py df c) c.
Proof.
  intros H. unfold coerce_numeric. destruct (decide (c ∈ columns df)) as [Hin|Hout].
  - apply (setcol_col_same numeric_cell df c
             (fun r => to_numeric py (cell_at r c))).
    intros r. apply to_numeric_numeric_cell.
  - unfold col_all. eapply Forall_impl; [exact H|].
    intros r Hr. simpl in Hr. rewrite (cell_at_absent r (columns df) c Hr Hout).
    reflexivity.
Qed.

Lemma coerce_all_spec (cs : list string) : forall df,
  NoDup cs -> wf df ->
  let df' := fold_left (coerce_numeric py) cs df in
  wf df' /\ (forall c, c ∈ columns df' <-> c ∈ columns df) /\
  Forall (col_all numeric_cell df') cs /\
  (forall (p : cell -> bool) c, c ∉ cs -> col_all p df c -> col_all p df' c).
Proof.
  induction cs as [|c cs IH]; intros df Hnd Hwf; simpl.
  - repeat split; auto.
  - apply NoDup_cons in Hnd as [Hc Hnd].
    destruct (IH (coerce_numeric py df c) Hnd (coerce_numeric_wf df c Hwf))
      as (W & C & N & P).
    repeat split.
    + exact W.
    + intros H. apply C in H. apply coerce_numeric_columns in H. exact H.
    + intros H. apply C. apply coerce_numeric_columns. exact H.
    + constructor; [|exact N].
      apply P; [exact Hc|]. apply coerce_numeric_same, Hwf.
    + intros p c' Hc' H. apply P; [set_solver|].
      apply coerce_numeric_other; [set_solver|exact H].
Qed.

(** The frame returned by the loader has its [date] column made of
    timestamps and NaT, and its four settlement columns numeric. *)
Lemma fetch_df_loaded docs df :
  fetch_df py docs = Ok df -> loaded df.
Proof.
  unfold fetch_df.
  set (rs := (fun d : string * gmap string cell => <["_doc_id" := CStr d.1]> d.2) <$> docs).
  destruct (decide ("date" ∈ columns (frame_of rs))) as [Hin|Hout].
  2: { rewrite (getcol_missing _ _ Hout). discriminate. }
  rewrite (getcol_ok _ _ Hin). simpl.
  rewrite <- list_fmap_compose.
  change (rows (frame_of rs)) with rs.
  set (f := to_datetime py ∘ (fun r => cell_at r "date")).
  set (df1 := setcol (frame_of rs) "date" (f <$> rs)).
  intros [= <-].
  assert (W1 : wf df1).
  { apply (setcol_wf (frame_of rs) "date" f), frame_of_wf. }
  assert (D1 : col_all date_cell df1 "date").
  { apply (setcol_col_same date_cell (frame_of rs) "date" f).
    intros r. apply to_datetime_date_cell. }
  assert (Hd1 : "date" ∈ columns df1).
  { apply elem_of_union. left. apply elem_of_singleton. reflexivity. }
  clearbody df1.
  assert (Hnd : NoDup numeric_columns).
  { unfold numeric_columns. repeat (apply NoDup_cons; split; [not_listed|]).
    apply NoDup_nil_2. }
  destruct (coerce_all_spec numeric_columns df1 Hnd W1) as (W & C & N & P).
  split.
  - exact W.
  - apply C, Hd1.
  - apply P; [|exact D1]. unfold numeric_columns. not_listed.
  - exact N.
Qed.

End Loader.

(** ** The filter *)

Lemma traverse_ts_of (s : list cell) :
  Forall (fun c => date_cell c = true) s -> traverse ts_of s = Ok (ts_opt <$> s).
Proof.
  intros H. apply traverse_map_ok. eapply Forall_impl; [exact H|].
  intros [| |b|q|t|d]; simpl; intros E; try discriminate; reflexivity.
Qed.

Lemma fold_min_le (l : list Z) : forall a,
  fold_left Z.min l a <= a /\ Forall (fun x => fold_left Z.min l a <= x) l.
Proof.
  induction l as [|x l IH]; intros a; simpl.
  - split; [lia|constructor].
  - destruct (IH (Z.min a x)) as [H1 H2]. split; [lia|].
    constructor; [lia|exact H2].
Qed.

Lemma fold_max_ge (l : list Z) : forall a,
  a <= fold_left Z.max l a /\ Forall (fun x => x <= fold_left Z.max l a) l.
Proof.
  induction l as [|x l IH]; intros a; simpl.
  - split; [lia|constructor].
  - destruct (IH (Z.max a x)) as [H1 H2]. split; [lia|].
    constructor; [lia|exact H2].
Qed.

Lemma Zmin_list_le l lo : Zmin_list l = Some lo -> Forall (fun x => lo <= x) l.
Proof.
  destruct l as [|a l]; simpl; [discriminate|]. intros [= <-].
  destruct (fold_min_le l a). constructor; assumption.
Qed.

Lemma Zmax_list_ge l hi : Zmax_list l = Some hi -> Forall (fun x => x <= hi) l.
Proof.
  destruct l as [|a l]; simpl; [discriminate|]. intros [= <-].
  destruct (fold_max_ge l a). constructor; assumption.
Qed.

Lemma dates_of_column (rs : list (gmap string cell)) r d :
  r ∈ rs -> cell_at r "date" = CDate d ->
  d ∈ omap id (ts_opt <$> ((fun r => cell_at r "date") <$> rs)).
Proof.
  intros Hin Hd. apply list_elem_of_omap. exists (Some d). split; [|reflexivity].
  apply list_elem_of_fmap. exists (CDate d). split; [reflexivity|].
  apply list_elem_of_fmap. exists r. split; [symmetry; exact Hd|exact Hin].
Qed.

Lemma min_date_le df lo r d :
  col_all date_cell df "date" -> min_date df = Ok (Some lo) ->
  r ∈ rows df -> cell_at r "date" = CDate d -> lo <= d.
Proof.
  intros Hty Hmin Hin Hd. unfold min_date, getcol in Hmin.
  destruct (decide ("date" ∈ columns df)); [|discriminate]. simpl in Hmin.
  rewrite traverse_ts_of in Hmin by (apply Forall_fmap; exact Hty).
  simpl in Hmin. injection Hmin as Hmin.
  apply Zmin_list_le in Hmin. rewrite Forall_forall in Hmin.
  apply Hmin. eapply dates_of_column; eassumption.
Qed.

Lemma max_date_ge df hi r d :
  col_all date_cell df "date" -> max_date df = Ok (Some hi) ->
  r ∈ rows df -> cell_at r "date" = CDate d -> d <= hi.
Proof.
  intros Hty Hmax Hin Hd. unfold max_date, getcol in Hmax.
  destruct (decide ("date" ∈ columns df)); [|discriminate]. simpl in Hmax.
  rewrite traverse_ts_of in Hmax by (apply Forall_fmap; exact Hty).
  simpl in Hmax. injection Hmax as Hmax.
  apply Zmax_list_ge in Hmax. rewrite Forall_forall in Hmax.
  apply Hmax. eapply dates_of_column; eassumption.
Qed.

Lemma filter_ext_in {A} (p q : A -> bool) (l : list A) :
  (forall x, x ∈ l -> p x = q x) ->
  filter (fun x => p x = true) l = filter (fun x => q x = true) l.
Proof.
  induction l as [|x l IH]; intros H; [reflexivity|].
  rewrite !filter_cons.
  rewrite (H x) by constructor.
  rewrite IH by (intros y Hy; apply H; constructor; exact Hy).
  destruct (decide (q x = true)); reflexivity.
Qed.

Section Filter.

Context (py : Python).

(** With both selectors on "ALL" the filter keeps the rows whose date
    lies in the range, and sorts them. *)
Lemma apply_filters_all df lo hi :
  "date" ∈ columns df -> "dia_id" ∈ columns df -> col_all date_cell df "date" ->
  exists out,
    apply_filters py df "ALL" lo hi "ALL" = Ok out /\
    columns out = columns df /\
    rows out ≡ₚ filter (fun r => in_range lo hi (ts_opt (cell_at r "date")) = true)
                       (rows df) /\
    StronglySorted (row_le ["date"; "dia_id"]) (rows out).
Proof.
  intros Hd Hi Hty. unfold apply_filters. simpl.
  rewrite (getcol_ok _ _ Hd). simpl.
  rewrite traverse_ts_of by (apply Forall_fmap; exact Hty). simpl.
  rewrite <- !list_fmap_compose.
  set (p := fun r : gmap string cell => in_range lo hi (ts_opt (cell_at r "date"))).
  change (in_range lo hi ∘ (ts_opt ∘ (fun r => cell_at r "date"))) with p.
  destruct (sort_values_rows (df_mask df (p <$> rows df)) ["date"; "dia_id"])
    as (out & Hout & Hc & Hp & Hs).
  { repeat constructor; assumption. }
  exists out. split; [exact Hout|]. split; [exact Hc|]. split; [|exact Hs].
  rewrite Hp. simpl. rewrite select_map. reflexivity.
Qed.

End Filter.

(** ** The "ALL" filter over the full range of dates *)

(** C1 (as stated, refuted): with one record dated "2024-01-01" and one
    dated "not-a-date", the filter with league "ALL", action "ALL" and the
    range [min date, max date] does not return every record: the record
    whose date failed to parse is dropped by the date mask. *)
Lemma all_filter_drops_unparsed_date :
  load docs_unparsed = Ok df_unparsed /\
  ~ all_filter_returns_every_record scenario_py df_unparsed.
Proof.
  split; [vm_compute; reflexivity|].
  intros H.
  destruct (H 19723 19723) as (out & Hout & Hperm & _);
    [vm_compute; reflexivity | vm_compute; reflexivity |].
  apply Permutation_length in Hperm.
  vm_compute in Hout. injection Hout as <-.
  vm_compute in Hperm. discriminate Hperm.
Qed.

(** C1 (amended): for a frame returned by the loader that has a [dia_id]
    column, the filter with league "ALL", action "ALL", dateFrom the minimum
    parsed date and dateTo the maximum parsed date succeeds and returns
    exactly the records whose date parsed, each once, sorted ascending by
    (date, dia_id); a record whose date failed to parse is not returned. *)
Theorem all_filter_returns_dated_records
    (py : Python) (docs : list (string * gmap string cell)) (df : DataFrame) (lo hi : Z) :
  fetch_df py docs = Ok df ->
  "dia_id" ∈ columns df ->
  min_date df = Ok (Some lo) ->
  max_date df = Ok (Some hi) ->
  exists out,
    apply_filters py df "ALL" lo hi "ALL" = Ok out /\
    rows out ≡ₚ filter (fun r => is_date (cell_at r "date") = true) (rows df) /\
    StronglySorted (row_le ["date"; "dia_id"]) (rows out) /\
    (forall r, r ∈ rows df -> cell_at r "date" = CNaT -> r ∉ rows out).
Proof.
  intros Hload Hid Hmin Hmax.
  destruct (fetch_df_loaded _ _ _ Hload) as [_ Hd Hty _].
  destruct (apply_filters_all py df lo hi Hd Hid Hty)
    as (out & Hout & _ & Hp & Hs).
  assert (Hf : filter (fun r => in_range lo hi (ts_opt (cell_at r "date")) = true) (rows df)
               = filter (fun r => is_date (cell_at r "date") = true) (rows df)).
  { apply (filter_ext_in (fun r => in_range lo hi (ts_opt (cell_at r "date")))
             (fun r => is_date (cell_at r "date"))).
    intros r Hr. destruct (cell_at r "date") as [| |b|q|s|d] eqn:E; try reflexivity.
    simpl.
    pose proof (min_date_le df lo r d Hty Hmin Hr E).
    pose proof (max_date_ge df hi r d Hty Hmax Hr E).
    apply andb_true_intro. split; apply Z.leb_le; assumption. }
  rewrite Hf in Hp.
  exists out. repeat split; try assumption.
  intros r Hr Hnat Hin. rewrite Hp in Hin.
  apply list_elem_of_filter in Hin as [Hin _]. rewrite Hnat in Hin. discriminate.
Qed.

Lemma all_filter_returns_dated_records_witness :
  exists out,
    apply_filters scenario_py df_unparsed "ALL" 19723 19723 "ALL" = Ok out /\
    rows out ≡ₚ filter (fun r => is_date (cell_at r "date") = true) (rows df_unparsed) /\
    StronglySorted (row_le ["date"; "dia_id"]) (rows out) /\
    (forall r, r ∈ rows df_unparsed -> cell_at r "date" = CNaT -> r ∉ rows out).
Proof.
  apply (all_filter_returns_dated_records scenario_py docs_unparsed df_unparsed
           19723 19723).
  - vm_compute; reflexivity.
  - refine (bool_decide_unpack _ _). vm_compute. exact I.
  - vm_compute; reflexivity.
  - vm_compute; reflexivity.
Defined.

(** ** The field picker and the derived columns *)

Section Derived.

Context (py : Python).



Lemma is_bet_false_iff c : is_bet py c = false <-> str_upper py c = "NO_BET".
Proof.
  unfold is_bet. rewrite negb_false_iff. apply String.eqb_eq.
Qed.

Lemma is_bet_true_iff c : is_bet py c = true <-> str_upper py c <> "NO_BET".
Proof.
  unfold is_bet. rewrite negb_true_iff. apply String.eqb_neq.
Qed.

Lemma select_fmap {A B} (f : A -> B) (p : A -> bool) (l : list A) :
  select (f <$> l) (p <$> l) = f <$> filter (fun x => p x = true) l.
Proof.
  induction l as [|x l IH]; simpl; [reflexivity|].
  rewrite filter_cons. destruct (p x) eqn:E.
  - rewrite decide_True by reflexivity. simpl. f_equal; exact IH.
  - rewrite decide_False by discriminate. exact IH.
Qed.

(** What lines 89-92 compute when the frame has a [cb_action] column. *)
Lemma derive_ok df_f :
  "cb_action" ∈ columns df_f ->
  exists f' b,
    derive py df_f = Ok (f', b) /\
    columns f' = {["is_bet"]} ∪ columns df_f /\
    rows f' = with_is_bet py <$> rows df_f /\
    columns b = {["edge_cb"]} ∪ ({["ev_cb"]} ∪ ({["is_bet"]} ∪ columns df_f)) /\
    rows b = with_picks py ({["is_bet"]} ∪ columns df_f) <$>
               (with_is_bet py <$>
                  filter (fun r => is_bet py (cell_at r "cb_action") = true) (rows df_f)).
Proof.
  intros Hc. unfold derive.
  rewrite (getcol_ok _ _ Hc). cbn [mbind res_bind].
  rewrite <- list_fmap_compose.
  set (g := fun r : gmap string cell => CBool (is_bet py (cell_at r "cb_action"))).
  change (CBool ∘ is_bet py ∘ (fun r => cell_at r "cb_action")) with g.
  set (f1 := setcol df_f "is_bet" (g <$> rows df_f)).
  assert (Hr1 : rows f1 = with_is_bet py <$> rows df_f) by apply setcol_rows.
  assert (Hc1 : columns f1 = {["is_bet"]} ∪ columns df_f) by reflexivity.
  assert (Hin : "is_bet" ∈ columns f1).
  { rewrite Hc1. apply elem_of_union. left. apply elem_of_singleton. reflexivity. }
  clearbody f1.
  rewrite (getcol_ok _ _ Hin). cbn [mbind res_bind].
  rewrite Hr1, <- list_fmap_compose.
  rewrite (traverse_fmap_ok bool_of _ (fun r => is_bet py (cell_at r "cb_action"))).
  2: { apply Forall_forall. intros r _. simpl.
       unfold with_is_bet. rewrite cell_at_insert_eq. reflexivity. }
  cbn [mbind res_bind].
  set (b0 := df_mask f1 _).
  assert (Hb0 : rows b0 = with_is_bet py <$>
            filter (fun r => is_bet py (cell_at r "cb_action") = true) (rows df_f)).
  { unfold b0, df_mask. cbn [rows]. rewrite Hr1. apply select_fmap. }
  assert (Hcb0 : columns b0 = columns f1) by reflexivity.
  clearbody b0.
  unfold df_apply. rewrite <- list_fmap_compose.
  set (b1 := setcol b0 "ev_cb" _).
  assert (Hb1 : rows b1 = (fun r => <["ev_cb" :=
                 cell_of_option (pick_by_action py (columns b0, r) "ev")]> r) <$> rows b0).
  { apply (setcol_rows b0 "ev_cb"
             (fun r => cell_of_option (pick_by_action py (columns b0, r) "ev"))). }
  assert (Hcb1 : columns b1 = {["ev_cb"]} ∪ columns b0) by reflexivity.
  clearbody b1.
  rewrite <- list_fmap_compose.
  eexists _, _. split; [reflexivity|].
  split; [exact Hc1|]. split; [exact Hr1|].
  split.
  - cbn [columns setcol]. rewrite Hcb1, Hcb0, Hc1. reflexivity.
  - cbn [rows setcol]. rewrite zip_with_map_r.
    rewrite Hb1, <- list_fmap_compose, Hcb1, Hcb0, Hc1, Hb0. reflexivity.
Qed.

End Derived.

Section DerivedRows.

Context (py : Python).

Lemma with_is_bet_other r c : c <> "is_bet" -> with_is_bet py r !! c = r !! c.
Proof. intros H. unfold with_is_bet. apply lookup_insert_ne. congruence. Qed.





End DerivedRows.



(** ** Home KPIs *)

Lemma traverse_num_of (s : list cell) :
  Forall (fun c => numeric_cell c = true) s -> traverse num_of s = Ok (num_opt <$> s).
Proof.
  intros H. apply traverse_map_ok. eapply Forall_impl; [exact H|].
  intros [| |b|q|t|d]; simpl; intros E; try discriminate; reflexivity.
Qed.

Lemma fold_left_Qplus (l : list Q) : forall a,
  (fold_left Qplus l a == a + foldr Qplus 0 l)%Q.
Proof.
  induction l as [|x l IH]; intros a; simpl.
  - ring.
  - rewrite IH. ring.
Qed.

Lemma Qsum_foldr (l : list Q) : (Qsum l == foldr Qplus 0 l)%Q.
Proof. unfold Qsum. rewrite fold_left_Qplus. ring. Qed.












(** ** From the loader to the KPIs *)

Lemma bind_Ok {A B} (m : res A) (f : A -> res B) (b : B) :
  m ≫= f = Ok b -> exists a, m = Ok a /\ f a = Ok b.
Proof. destruct m as [a|e]; simpl; [eauto|discriminate]. Qed.

Lemma select_elem {A} (l : list A) : forall mask x, x ∈ select l mask -> x ∈ l.
Proof.
  induction l as [|y l IH]; intros [|b mask] x; simpl; try (intros H; inversion H; fail).
  destruct b.
  - intros H. apply elem_of_cons in H as [->|H]; [constructor|].
    constructor. eapply IH, H.
  - intros H. constructor. eapply IH, H.
Qed.

Lemma sub_frame_refl df : sub_frame df df.
Proof. split; auto. Qed.

Lemma sub_frame_trans a b c : sub_frame a b -> sub_frame b c -> sub_frame a c.
Proof. intros [H1 H2] [H3 H4]. split; [congruence|auto]. Qed.

Lemma sub_frame_mask df mask : sub_frame (df_mask df mask) df.
Proof. split; [reflexivity|]. intros r. apply select_elem. Qed.


Lemma sort_values_inv df by_ out :
  sort_values df by_ = Ok out ->
  sub_frame out df /\ StronglySorted (row_le by_) (rows out).
Proof.
  unfold sort_values. intros H. apply bind_Ok in H as (x & _ & H).
  injection H as <-. split; [split; [reflexivity|]|].
  - intros r Hr. cbn [rows] in Hr.
    rewrite (sort_by_perm (row_cmp by_)) in Hr. exact Hr.
  - apply (sort_by_sorted (row_cmp by_)), row_cmp_preorder.
Qed.

Lemma StronglySorted_fmap_mono {A B} (R : A -> A -> Prop) (R' : B -> B -> Prop)
    (f : A -> B) (l : list A) :
  (forall x y, R x y -> R' (f x) (f y)) ->
  StronglySorted R l -> StronglySorted R' (f <$> l).
Proof.
  intros Hf. induction 1 as [|x l _ IH Hx]; [constructor|].
  rewrite fmap_cons. constructor; [exact IH|].
  apply Forall_fmap. eapply Forall_impl; [exact Hx|]. intros y. apply Hf.
Qed.

Lemma row_cmp_ext by_ (r1 r2 r1' r2' : gmap string cell) :
  (forall c, c ∈ by_ -> r1' !! c = r1 !! c) ->
  (forall c, c ∈ by_ -> r2' !! c = r2 !! c) ->
  row_cmp by_ r1' r2' = row_cmp by_ r1 r2.
Proof.
  induction by_ as [|c by_ IH]; intros H1 H2; [reflexivity|].
  simpl. unfold cell_at. rewrite H1, H2 by constructor.
  rewrite IH; [reflexivity| |]; intros c' Hc'; [apply H1|apply H2]; constructor; exact Hc'.
Qed.

Section Invariants.

Context (py : Python).

Lemma apply_filters_inv df league lo hi act out :
  apply_filters py df league lo hi act = Ok out ->
  sub_frame out df /\ StronglySorted (row_le ["date"; "dia_id"]) (rows out).
Proof.
  unfold apply_filters. intros H.
  apply bind_Ok in H as (o1 & H1 & H).
  apply bind_Ok in H as (o2 & H2 & H).
  apply bind_Ok in H as (s & _ & H).
  apply bind_Ok in H as (ds & _ & H).
  apply sort_values_inv in H as [Hsub Hs].
  split; [|exact Hs].
  assert (S1 : sub_frame o1 df).
  { destruct (String.eqb league "ALL").
    - injection H1 as <-. apply sub_frame_refl.
    - apply bind_Ok in H1 as (x & _ & H1). injection H1 as <-. apply sub_frame_mask. }
  assert (S2 : sub_frame o2 o1).
  { destruct (String.eqb act "ALL").
    - injection H2 as <-. apply sub_frame_refl.
    - apply bind_Ok in H2 as (x & _ & H2). injection H2 as <-. apply sub_frame_mask. }
  eapply sub_frame_trans; [exact Hsub|].
  eapply sub_frame_trans; [apply sub_frame_mask|].
  eapply sub_frame_trans; eassumption.
Qed.

Lemma derive_inv df_f f' b :
  derive py df_f = Ok (f', b) ->
  "cb_action" ∈ columns df_f /\
  columns f' = {["is_bet"]} ∪ columns df_f /\
  rows f' = with_is_bet py <$> rows df_f /\
  columns b = {["edge_cb"]} ∪ ({["ev_cb"]} ∪ ({["is_bet"]} ∪ columns df_f)) /\
  rows b = with_picks py ({["is_bet"]} ∪ columns df_f) <$>
             (with_is_bet py <$>
                filter (fun r => is_bet py (cell_at r "cb_action") = true) (rows df_f)).
Proof.
  intros H. destruct (decide ("cb_action" ∈ columns df_f)) as [Hc|Hc].
  - destruct (derive_ok py df_f Hc) as (f0 & b0 & Hd & R).
    rewrite Hd in H. injection H as <- <-. split; [exact Hc|exact R].
  - unfold derive in H. rewrite (getcol_missing _ _ Hc) in H. discriminate.
Qed.



End Invariants.

Section KPIs.

Context (py : Python).


Lemma derived_sorted df league lo hi act df_f f' b :
  apply_filters py df league lo hi act = Ok df_f ->
  derive py df_f = Ok (f', b) ->
  StronglySorted (row_le ["date"; "dia_id"]) (rows f').
Proof.
  intros Hf Hd.
  apply apply_filters_inv in Hf as [_ Hs].
  apply derive_inv in Hd as (_ & _ & -> & _).
  eapply StronglySorted_fmap_mono; [|exact Hs].
  intros x y. unfold row_le, le_of.
  rewrite (row_cmp_ext _ x y (with_is_bet py x) (with_is_bet py y)); [tauto| |];
    intros c Hc; apply with_is_bet_other; intros ->; revert Hc; not_listed.
Qed.

End KPIs.


(** ** ROI guards *)

Lemma roi_simple_pos pn st : (0 < st)%Q -> roi_simple pn st = (pn / st)%Q.
Proof.
  intros H. unfold roi_simple.
  destruct (Qle_bool st 0) eqn:E; [|reflexivity].
  apply Qle_bool_iff in E. exfalso. exact (Qlt_not_le _ _ H E).
Qed.

Lemma roi_simple_nonpos pn st : (st <= 0)%Q -> roi_simple pn st = 0%Q.
Proof.
  intros H. unfold roi_simple. apply Qle_bool_iff in H. rewrite H. reflexivity.
Qed.

Lemma home_kpis_roi f b k :
  home_kpis f b = Ok k -> k_roi_simple k = roi_simple (k_pnl_total k) (k_stake_total k).
Proof.
  unfold home_kpis. intros H.
  apply bind_Ok in H as (st & _ & H). apply bind_Ok in H as (pn & _ & H).
  apply bind_Ok in H as (bf & _ & H). apply bind_Ok in H as (dd & _ & H).
  injection H as <-. reflexivity.
Qed.

(** The sum of column [c] over the rows, missing values skipped. *)
Lemma nansum_column (rs : list (gmap string cell)) c :
  Forall (fun r => numeric_cell (cell_at r c) = true) rs ->
  exists q, nansum ((fun r => cell_at r c) <$> rs) = Ok q /\ (q == sum_over rs c)%Q.
Proof.
  intros H. unfold nansum.
  rewrite traverse_num_of by (apply Forall_fmap; exact H). cbn [mbind res_bind].
  eexists; split; [reflexivity|].
  rewrite Qsum_foldr. clear H.
  induction rs as [|r rs IH]; simpl; [reflexivity|].
  destruct (cell_at r c); simpl; rewrite IH; ring.
Qed.

Lemma league_row_spec b k :
  col_all numeric_cell b "cb_stake" -> col_all numeric_cell b "cb_pnl" ->
  col_all numeric_cell b "ev_cb" ->
  exists g, league_row b k = Ok g /\ league_row_ok b k g.
Proof.
  intros Hst Hpn Hev. unfold league_row. fold (group_of b k).
  assert (Hsub : forall c, col_all numeric_cell b c ->
            Forall (fun r => numeric_cell (cell_at r c) = true) (group_of b k)).
  { intros c H. unfold col_all in H. rewrite Forall_forall in *. intros r Hr.
    apply list_elem_of_filter in Hr as [_ Hr]. auto. }
  destruct (nansum_column (group_of b k) "cb_stake" (Hsub _ Hst)) as (st & -> & Est).
  destruct (nansum_column (group_of b k) "cb_pnl" (Hsub _ Hpn)) as (pn & -> & Epn).
  destruct (nansum_column (group_of b k) "ev_cb" (Hsub _ Hev)) as (ev & -> & _).
  cbn [mbind res_bind]. eexists; split; [reflexivity|].
  unfold league_row_ok; cbn. unfold truthy.
  repeat split; try assumption.
  - intros Hnz. destruct (Qeq_bool st 0) eqn:E; [|reflexivity].
    apply Qeq_bool_iff in E. contradiction.
  - intros Hz. apply Qeq_bool_iff in Hz. rewrite Hz. reflexivity.
  - intros Hle. destruct (Qeq_bool st 0) eqn:E; simpl.
    + apply Qeq_bool_iff in E. symmetry. apply roi_simple_nonpos. rewrite E. apply Qle_refl.
    + symmetry. apply roi_simple_pos. apply Qle_lteq in Hle as [Hlt|Heq]; [exact Hlt|].
      apply Qeq_bool_neq in E. exfalso. apply E. symmetry. exact Heq.
Qed.

Lemma traverse_Forall2 {A B} (f : A -> res B) (P : A -> B -> Prop) (l : list A) :
  (forall x, exists y, f x = Ok y /\ P x y) ->
  exists ys, traverse f l = Ok ys /\ Forall2 P l ys.
Proof.
  intros H. induction l as [|x l (ys & Hys & HF)].
  - exists []. split; [reflexivity|constructor].
  - destruct (H x) as (y & Hy & Py). exists (y :: ys). split.
    + cbn [traverse]. rewrite Hy, Hys. reflexivity.
    + constructor; assumption.
Qed.

Lemma by_league_spec b :
  "league" ∈ columns b -> "cb_action" ∈ columns b -> "cb_stake" ∈ columns b ->
  "cb_pnl" ∈ columns b -> "ev_cb" ∈ columns b ->
  col_all numeric_cell b "cb_stake" -> col_all numeric_cell b "cb_pnl" ->
  col_all numeric_cell b "ev_cb" ->
  exists t, by_league b = Ok t /\
    Forall2 (league_row_ok b)
      (sort_by cell_leb (uniq_keys ((fun r => cell_at r "league") <$> rows b))) t.
Proof.
  intros Hl Ha Hs Hp He Nst Npn Nev. unfold by_league.
  rewrite (getcol_ok _ _ Hl). cbn [mbind res_bind].
  cbn [traverse]. rewrite (getcol_ok _ _ Ha), (getcol_ok _ _ Hs),
    (getcol_ok _ _ Hp), (getcol_ok _ _ He). cbn [mbind res_bind].
  apply traverse_Forall2. intros k. apply league_row_spec; assumption.
Qed.

(** ** The scenario of spec 8.6 *)

Lemma crosstab_two_bets (a r : string) :
  ct_count (crosstab ["H"; "D"] ["H"; "A"]) a r =
  if decide ((a, r) = ("H", "H")) then 1%nat
  else if decide ((a, r) = ("D", "A")) then 1%nat else 0%nat.
Proof.
  cbn [ct_count crosstab zip zip_with]. unfold pair_count.
  rewrite !filter_cons, filter_nil.
  destruct (decide ((a, r) = ("H", "H"))) as [E|E].
  - injection E as -> ->. reflexivity.
  - destruct (decide ((a, r) = ("D", "A"))) as [E'|E'].
    + injection E' as -> ->. reflexivity.
    + rewrite decide_False by congruence. rewrite decide_False by congruence.
      reflexivity.
Qed.

(** C7: on the three records of spec 8.6, filtered with league "ALL" and
    action "ALL" over [2024-01-01, 2024-01-03], the code computes
    matches = 3, bets = 2, stake_total = 20, pnl_total = -5,
    roi_simple = -0.25 and hit_rate = 0.5, and the crosstab counts 1 for
    ("H","H"), 1 for ("D","A") and 0 for every other pair.  The first part
    evaluates the cited computations on the records as listed; the second
    runs the whole script on the records completed with a league and the
    bankroll columns. *)
Theorem spec_scenario_three_records :
  (load docs_three = Ok df_three /\
   min_date df_three = Ok (Some 19723) /\ max_date df_three = Ok (Some 19725) /\
   apply_filters scenario_py df_three "ALL" 19723 19725 "ALL" = Ok filtered_three /\
   derive scenario_py filtered_three = Ok derived_three /\
   matches derived_three.1 = 3%nat /\
   bets derived_three.2 = 2%nat /\
   stake_total derived_three.2 = Ok 20%Q /\
   pnl_total derived_three.2 = Ok (-5)%Q /\
   (roi_simple (-5) 20 == - (1 # 4))%Q /\
   hit_rate scenario_py derived_three.2 = Ok (Some (1 # 2)) /\
   conf scenario_py derived_three.2 = Ok (crosstab ["H"; "D"] ["H"; "A"])) /\
  (load docs_three_full = Ok df_three_full /\
   raises (dashboard scenario_py df_three_full "ALL" 19723 19725 "ALL") = false /\
   k_matches <$> kpis_three_full = Some 3%nat /\
   k_bets <$> kpis_three_full = Some 2%nat /\
   k_stake_total <$> kpis_three_full = Some 20%Q /\
   k_pnl_total <$> kpis_three_full = Some (-5)%Q /\
   (exists q, k_roi_simple <$> kpis_three_full = Some q /\ (q == - (1 # 4))%Q) /\
   b_hit_rate <$> backtest_three_full = Some (Some (1 # 2)) /\
   b_conf <$> backtest_three_full = Some (crosstab ["H"; "D"] ["H"; "A"])) /\
  ct_index (crosstab ["H"; "D"] ["H"; "A"]) = ["D"; "H"] /\
  ct_columns (crosstab ["H"; "D"] ["H"; "A"]) = ["A"; "H"] /\
  (forall a r,
     ct_count (crosstab ["H"; "D"] ["H"; "A"]) a r =
     if decide ((a, r) = ("H", "H")) then 1%nat
     else if decide ((a, r) = ("D", "A")) then 1%nat else 0%nat).
Proof.
  split; [|split; [|split; [|split]]].
  - repeat split; vm_compute; reflexivity.
  - repeat split; try (vm_compute; reflexivity).
    eexists. split; vm_compute; reflexivity.
  - vm_compute; reflexivity.
  - vm_compute; reflexivity.
  - apply crosstab_two_bets.
Qed.

(** ** Frames that lack a settlement column *)

(** C9 (the code at the failing inputs): the loader accepts records without
    the settlement fields, but the KPIs then read columns that do not
    exist: on one bet without cb_stake the script raises KeyError at
    line 99, and on the three records of spec 8.6, none of which has
    cb_bank_after, it raises KeyError at line 102.  When the fields are
    missing from some records only, the script completes. *)
Theorem missing_settlement_column_raises :
  load docs_bare = Ok df_bare /\
  dashboard scenario_py df_bare "ALL" 19723 19723 "ALL" = Raise (KeyError "cb_stake") /\
  load docs_three = Ok df_three /\
  dashboard scenario_py df_three "ALL" 19723 19725 "ALL"
    = Raise (KeyError "cb_bank_after") /\
  load docs_missing_action = Ok df_missing_action /\
  raises (dashboard scenario_py df_missing_action "ALL" 19723 19724 "ALL") = false.
Proof. repeat split; vm_compute; reflexivity. Qed.

(** ** Hit rate *)

Lemma count_true_fmap {A} (f : A -> bool) (l : list A) :
  length (filter (fun b => b = true) (f <$> l)) = length (filter (fun x => f x = true) l).
Proof.
  induction l as [|x l IH]; [reflexivity|].
  rewrite fmap_cons, !filter_cons.
  destruct (decide (f x = true)); simpl; rewrite IH; reflexivity.
Qed.

Lemma mean_bool_ratio {A} (f : A -> bool) (l : list A) :
  l <> [] ->
  mean_bool (f <$> l) = Some (ratio (length (filter (fun x => f x = true) l)) (length l)).
Proof.
  intros H. destruct l as [|x l]; [contradiction H; reflexivity|].
  unfold mean_bool, ratio. rewrite fmap_cons.
  rewrite <- (fmap_cons f x l), count_true_fmap, length_fmap. reflexivity.
Qed.

Lemma hit_rate_ok py b :
  "cb_action" ∈ columns b -> "result" ∈ columns b ->
  hit_rate py b = Ok (mean_bool (row_hit py <$> rows b)).
Proof.
  intros Ha Hr. unfold hit_rate. rewrite (getcol_ok _ _ Ha), (getcol_ok _ _ Hr).
  cbn [mbind res_bind]. rewrite zip_with_map_both. reflexivity.
Qed.










(** ** ROI: the scalar guard and the guard of the rollup *)

(** C3 (as stated, refuted): for a league whose stake total is -10 and
    whose profit is 5 the rollup holds 5 / -10, where the scalar guard
    gives 0. *)
Lemma league_roi_on_negative_stake :
  exists t,
    by_league derived_negative_stake.2 = Ok t /\ ~ league_guard_as_scalar t.
Proof.
  eexists. split; [vm_compute; reflexivity|].
  intros H. apply Forall_cons in H as [H _].
  vm_compute in H. discriminate H.
Qed.

(** C3 (amended): the scalar ROI is pnl_total / stake_total when
    stake_total > 0 and exactly 0 otherwise, and the KPI holds that value;
    the rollup has one row per league key whose ROI is the quotient of the
    league's totals when its stake total is nonzero and exactly 0 when it is
    zero, which is the scalar guard's value whenever the stake total is not
    negative. *)
Theorem roi_guards (py : Python) (f' b : DataFrame) :
  "league" ∈ columns b -> "cb_action" ∈ columns b -> "cb_stake" ∈ columns b ->
  "cb_pnl" ∈ columns b -> "ev_cb" ∈ columns b ->
  col_all numeric_cell b "cb_stake" -> col_all numeric_cell b "cb_pnl" ->
  col_all numeric_cell b "ev_cb" ->
  (forall pn st, ((0 < st)%Q -> roi_simple pn st = (pn / st)%Q) /\
                 ((st <= 0)%Q -> roi_simple pn st = 0%Q)) /\
  (forall k, home_kpis f' b = Ok k ->
             k_roi_simple k = roi_simple (k_pnl_total k) (k_stake_total k)) /\
  exists t,
    by_league b = Ok t /\
    Forall2 (league_row_ok b)
      (sort_by cell_leb (uniq_keys ((fun r => cell_at r "league") <$> rows b))) t.
Proof.
  intros Hl Ha Hs Hp He Nst Npn Nev. split; [|split].
  - intros pn st. split; [apply roi_simple_pos|apply roi_simple_nonpos].
  - intros k. apply home_kpis_roi.
  - apply by_league_spec; assumption.
Qed.

Lemma roi_guards_witness :
  exists t,
    by_league derived_three_full.2 = Ok t /\
    Forall2 (league_row_ok derived_three_full.2)
      (sort_by cell_leb
         (uniq_keys ((fun r => cell_at r "league") <$> rows derived_three_full.2))) t.
Proof.
  apply (roi_guards scenario_py derived_three_full.1 derived_three_full.2);
    try (refine (bool_decide_unpack _ _); vm_compute; exact I);
    unfold col_all; apply Forall_forall; intros r Hr;
    repeat (apply elem_of_cons in Hr; destruct Hr as [->|Hr]; [vm_compute; reflexivity|]);
    inversion Hr.
Defined.

(** ** Empty sets *)




(** * Further properties of the code *)

(** * Further properties *)

(** ** The filter, for any selection *)

Lemma getcol_inv df c s :
  getcol df c = Ok s -> c ∈ columns df /\ s = (fun r => cell_at r c) <$> rows df.
Proof.
  unfold getcol. destruct (decide (c ∈ columns df)); [|discriminate].
  intros [= <-]. split; [assumption|reflexivity].
Qed.

Lemma traverse_Ok_fmap {A B} (f : A -> res B) (g : A -> B) (l : list A) :
  (forall x y, f x = Ok y -> y = g x) ->
  forall ys, traverse f l = Ok ys -> ys = g <$> l.
Proof.
  intros Hf. induction l as [|x l IH]; intros ys H.
  - injection H as <-. reflexivity.
  - cbn [traverse] in H. apply bind_Ok in H as (y & Hy & H).
    apply bind_Ok in H as (ys' & Hys & H). injection H as <-.
    rewrite fmap_cons, <- (Hf x y Hy), <- (IH ys' Hys). reflexivity.
Qed.

Lemma ts_of_ts_opt c o : ts_of c = Ok o -> o = ts_opt c.
Proof. destruct c; simpl; intros [= <-] || discriminate; reflexivity. Qed.

Lemma filter_all_true {A} (p : A -> bool) (l : list A) :
  Forall (fun x => p x = true) l -> filter (fun x => p x = true) l = l.
Proof.
  induction 1 as [|x l Hx _ IH]; [reflexivity|].
  rewrite filter_cons, decide_True by exact Hx. f_equal. exact IH.
Qed.

Lemma filter_filter_bool {A} (p q : A -> bool) (l : list A) :
  filter (fun x => q x = true) (filter (fun x => p x = true) l)
  = filter (fun x => p x && q x = true) l.
Proof.
  induction l as [|x l IH]; [reflexivity|].
  rewrite (filter_cons (fun x => p x = true)), (filter_cons (fun x => p x && q x = true)).
  destruct (decide (p x = true)) as [Ep|Ep].
  - rewrite filter_cons, IH, Ep. simpl.
    destruct (decide (q x = true)); reflexivity.
  - rewrite IH. apply not_true_is_false in Ep. rewrite Ep.
    destruct (decide (false && q x = true)) as [E|E]; [discriminate E|reflexivity].
Qed.

Section FilterExact.

Context (py : Python).

(** The rows that [apply_filters] returns, whenever it returns. *)
Lemma apply_filters_exact df league lo hi act out :
  apply_filters py df league lo hi act = Ok out ->
  columns out = columns df /\
  "date" ∈ columns df /\ "dia_id" ∈ columns df /\
  (league <> "ALL" -> "league" ∈ columns df) /\
  (act <> "ALL" -> "cb_action" ∈ columns df) /\
  rows out = sort_by (row_leb ["date"; "dia_id"])
               (filter (fun r => selected py league lo hi act r = true) (rows df)).
Proof.
  unfold apply_filters. intros H.
  apply bind_Ok in H as (o1 & H1 & H).
  apply bind_Ok in H as (o2 & H2 & H).
  apply bind_Ok in H as (s & Hs & H).
  apply bind_Ok in H as (ds & Hds & H).
  apply getcol_inv in Hs as [Hdate ->].
  apply (traverse_Ok_fmap ts_of ts_opt _ ts_of_ts_opt) in Hds. subst ds.
  unfold sort_values in H. apply bind_Ok in H as (cs & Hcs & H). injection H as <-.
  cbn [traverse] in Hcs. apply bind_Ok in Hcs as (c1 & _ & Hcs).
  apply bind_Ok in Hcs as (c2 & Hc2 & _). apply bind_Ok in Hc2 as (c3 & Hc3 & _).
  apply getcol_inv in Hc3 as [Hdia _]. cbn [columns df_mask] in Hdia.
  set (p1 := fun r : gmap string cell =>
               String.eqb league "ALL" || eq_str league (cell_at r "league")).
  set (p2 := fun r : gmap string cell =>
               String.eqb act "ALL" || String.eqb (str_upper py (cell_at r "cb_action")) act).
  set (p3 := fun r : gmap string cell => in_range lo hi (ts_opt (cell_at r "date"))).
  assert (S1 : columns o1 = columns df /\ (league <> "ALL" -> "league" ∈ columns df) /\
               rows o1 = filter (fun r => p1 r = true) (rows df)).
  { unfold p1. destruct (String.eqb league "ALL") eqn:E.
    - injection H1 as <-. split; [reflexivity|].
      split; [intros Hne; apply String.eqb_eq in E; contradiction|].
      symmetry. apply filter_all_true, Forall_forall. intros; reflexivity.
    - apply bind_Ok in H1 as (x & Hx & H1). injection H1 as <-.
      apply getcol_inv in Hx as [Hl ->]. split; [reflexivity|]. split; [intros _; exact Hl|].
      cbn [rows df_mask]. rewrite <- list_fmap_compose. apply select_map. }
  destruct S1 as (C1 & L1 & R1).
  assert (S2 : columns o2 = columns o1 /\ (act <> "ALL" -> "cb_action" ∈ columns o1) /\
               rows o2 = filter (fun r => p2 r = true) (rows o1)).
  { unfold p2. destruct (String.eqb act "ALL") eqn:E.
    - injection H2 as <-. split; [reflexivity|].
      split; [intros Hne; apply String.eqb_eq in E; contradiction|].
      symmetry. apply filter_all_true, Forall_forall. intros; reflexivity.
    - apply bind_Ok in H2 as (x & Hx & H2). injection H2 as <-.
      apply getcol_inv in Hx as [Hl ->]. split; [reflexivity|]. split; [intros _; exact Hl|].
      cbn [rows df_mask]. rewrite <- list_fmap_compose. apply select_map. }
  destruct S2 as (C2 & L2 & R2).
  cbn [columns rows df_mask]. rewrite C2, C1 in *.
  split; [reflexivity|]. split; [exact Hdate|]. split; [exact Hdia|].
  split; [exact L1|]. split; [exact L2|].
  rewrite <- !list_fmap_compose, select_map.
  rewrite R2, R1, !filter_filter_bool. f_equal.
  apply (filter_ext_in _ (selected py league lo hi act)).
  intros r _. unfold selected, p1, p2. cbn [compose]. apply andb_assoc.
Qed.

End FilterExact.

(** ** More on the sort *)

Section SortMore.

Context {A : Type} (cmp : A -> A -> comparison) (Hcmp : preorder_cmp cmp).

Lemma insert_by_front x (l : list A) :
  Forall (le_of cmp x) l -> insert_by (leb_of cmp) x l = x :: l.
Proof.
  destruct l as [|y l]; [reflexivity|].
  intros H. apply Forall_cons in H as [Hxy _].
  cbn [insert_by]. apply leb_of_true in Hxy. rewrite Hxy. reflexivity.
Qed.

Lemma sort_by_sorted_id (l : list A) :
  StronglySorted (le_of cmp) l -> sort_by (leb_of cmp) l = l.
Proof.
  induction 1 as [|x l _ IH Hx]; [reflexivity|].
  unfold sort_by in *. cbn [foldr]. rewrite IH. apply insert_by_front, Hx.
Qed.

Lemma Forall_filter_bool (P : A -> Prop) (p : A -> bool) (l : list A) :
  Forall P l -> Forall P (filter (fun y => p y = true) l).
Proof.
  intros H. apply Forall_forall. intros y Hy.
  apply list_elem_of_filter in Hy as [_ Hy]. rewrite Forall_forall in H. auto.
Qed.

Lemma insert_by_filter (p : A -> bool) x (l : list A) :
  StronglySorted (le_of cmp) l ->
  filter (fun y => p y = true) (insert_by (leb_of cmp) x l)
  = if p x then insert_by (leb_of cmp) x (filter (fun y => p y = true) l)
    else filter (fun y => p y = true) l.
Proof.
  induction 1 as [|y l Hs IH Hy].
  - cbn [insert_by]. rewrite filter_cons, filter_nil.
    destruct (decide (p x = true)) as [E|E].
    + rewrite E. reflexivity.
    + apply not_true_is_false in E. rewrite E. reflexivity.
  - cbn [insert_by]. destruct (leb_of cmp x y) eqn:L.
    + rewrite (filter_cons _ x).
      destruct (decide (p x = true)) as [E|E].
      * rewrite E. symmetry. apply insert_by_front.
        apply Forall_filter_bool. apply leb_of_true in L.
        constructor; [exact L|].
        eapply Forall_impl; [exact Hy|]. intros z Hz.
        eapply (le_of_trans cmp Hcmp); eassumption.
      * apply not_true_is_false in E. rewrite E. reflexivity.
    + rewrite (filter_cons _ y), IH, (filter_cons _ y).
      destruct (decide (p y = true)) as [Ey|Ey]; destruct (p x); try reflexivity.
      cbn [insert_by]. rewrite L. reflexivity.
Qed.

(** Filtering the sorted list and sorting the filtered list agree. *)
Lemma sort_by_filter (p : A -> bool) (l : list A) :
  filter (fun y => p y = true) (sort_by (leb_of cmp) l)
  = sort_by (leb_of cmp) (filter (fun y => p y = true) l).
Proof.
  induction l as [|x l IH]; [reflexivity|].
  unfold sort_by in *. cbn [foldr].
  rewrite insert_by_filter by (apply (sort_by_sorted cmp Hcmp)).
  rewrite filter_cons, IH.
  destruct (decide (p x = true)) as [E|E].
  - rewrite E. reflexivity.
  - apply not_true_is_false in E. rewrite E. reflexivity.
Qed.

Lemma cmp_refl x : cmp x x = Eq.
Proof.
  pose proof (cmp_antisym _ Hcmp x x) as H. destruct (cmp x x); simpl in H; congruence.
Qed.

Lemma cmp_Eq_sym x y : cmp x y = Eq -> cmp y x = Eq.
Proof. intros H. rewrite (cmp_antisym _ Hcmp x y), H. reflexivity. Qed.

Lemma cmp_Eq_trans x y z : cmp x y = Eq -> cmp y z = Eq -> cmp x z = Eq.
Proof.
  intros H1 H2.
  destruct (cmp_trans _ Hcmp x y z) as [Hn _]; [congruence..|].
  destruct (cmp_trans _ Hcmp z y x) as [Hn' _];
    [rewrite (cmp_Eq_sym _ _ H2); congruence | rewrite (cmp_Eq_sym _ _ H1); congruence|].
  rewrite (cmp_antisym _ Hcmp x z) in Hn'.
  destruct (cmp x z); simpl in *; congruence.
Qed.

(** A stable sort: the elements that compare equal to [x0] come out in the
    order in which they went in. *)
Lemma sort_by_stable (x0 : A) (l : list A) :
  filter (fun y => match cmp y x0 with Eq => true | _ => false end = true)
         (sort_by (leb_of cmp) l)
  = filter (fun y => match cmp y x0 with Eq => true | _ => false end = true) l.
Proof.
  rewrite (sort_by_filter (fun y => match cmp y x0 with Eq => true | _ => false end)).
  apply sort_by_sorted_id.
  set (l' := filter _ l).
  assert (H : Forall (fun y => cmp y x0 = Eq) l').
  { apply Forall_forall. intros y Hy. apply list_elem_of_filter in Hy as [Hy _].
    destruct (cmp y x0); [reflexivity|discriminate..]. }
  clearbody l'. induction H as [|y l' Hy Hl IH]; constructor; [exact IH|].
  eapply Forall_impl; [exact Hl|]. intros z Hz. unfold le_of.
  rewrite (cmp_Eq_trans y x0 z Hy (cmp_Eq_sym _ _ Hz)). discriminate.
Qed.

End SortMore.

(** ** Outcomes of the filter *)

Lemma upper_ascii_idem a : upper_ascii (upper_ascii a) = upper_ascii a.
Proof. destruct a as [[] [] [] [] [] [] [] []]; vm_compute; reflexivity. Qed.

Lemma upper_idem s : upper (upper s) = upper s.
Proof.
  induction s as [|a s IH]; [reflexivity|].
  cbn [upper]. rewrite upper_ascii_idem, IH. reflexivity.
Qed.

Lemma traverse_no_raise {A B} (f : A -> res B) (l : list A) :
  Forall (fun x => raises (f x) = false) l -> exists ys, traverse f l = Ok ys.
Proof.
  induction 1 as [|x l Hx _ [ys IH]]; [exists []; reflexivity|].
  destruct (f x) as [y|e] eqn:E; [|discriminate Hx].
  exists (y :: ys). cbn [traverse]. rewrite E, IH. reflexivity.
Qed.

Section FilterOutcomes.

Context (py : Python).

Lemma selected_true league lo hi act (r : gmap string cell) :
  selected py league lo hi act r = true ->
  (league <> "ALL" -> cell_at r "league" = CStr league) /\
  (act <> "ALL" -> str_upper py (cell_at r "cb_action") = act) /\
  exists d, cell_at r "date" = CDate d /\ lo <= d <= hi.
Proof.
  unfold selected. intros H.
  apply andb_true_iff in H as [H H3]. apply andb_true_iff in H as [H1 H2].
  split; [|split].
  - intros Hne. apply orb_true_iff in H1 as [H1|H1].
    + apply String.eqb_eq in H1. contradiction.
    + destruct (cell_at r "league"); try discriminate H1.
      simpl in H1. apply String.eqb_eq in H1. congruence.
  - intros Hne. apply orb_true_iff in H2 as [H2|H2].
    + apply String.eqb_eq in H2. contradiction.
    + apply String.eqb_eq in H2. exact H2.
  - destruct (cell_at r "date"); try discriminate H3.
    simpl in H3. apply andb_true_iff in H3 as [Ha Hb].
    apply Z.leb_le in Ha, Hb. eauto.
Qed.

Lemma filter_error_None df league act :
  filter_error df league act = None ->
  (league <> "ALL" -> "league" ∈ columns df) /\
  (act <> "ALL" -> "cb_action" ∈ columns df) /\
  "dia_id" ∈ columns df.
Proof.
  unfold filter_error. intros H.
  destruct (String.eqb league "ALL") eqn:E1;
    destruct (bool_decide ("league" ∈ columns df)) eqn:B1; try discriminate H;
    destruct (String.eqb act "ALL") eqn:E2;
    destruct (bool_decide ("cb_action" ∈ columns df)) eqn:B2; try discriminate H;
    destruct (bool_decide ("dia_id" ∈ columns df)) eqn:B3; try discriminate H;
    repeat match goal with
           | B : bool_decide _ = true |- _ => apply bool_decide_eq_true in B
           | E : String.eqb _ _ = true |- _ => apply String.eqb_eq in E
           end;
    repeat split; intros; try assumption; try contradiction.
Qed.

Lemma league_selection_ok df league :
  (league <> "ALL" -> "league" ∈ columns df) ->
  exists o1,
    (if String.eqb league "ALL" then Ok df
     else s ← getcol df "league"; Ok (df_mask df (eq_str league <$> s)))
    = Ok o1 /\ sub_frame o1 df.
Proof.
  intros Hl. destruct (String.eqb league "ALL") eqn:E.
  - exists df. split; [reflexivity|apply sub_frame_refl].
  - apply String.eqb_neq in E. rewrite (getcol_ok _ _ (Hl E)). cbn [mbind res_bind].
    eexists; split; [reflexivity|apply sub_frame_mask].
Qed.

Lemma action_selection_ok df act :
  (act <> "ALL" -> "cb_action" ∈ columns df) ->
  exists o2,
    (if String.eqb act "ALL" then Ok df
     else s ← getcol df "cb_action";
          Ok (df_mask df ((fun c => String.eqb (str_upper py c) act) <$> s)))
    = Ok o2 /\ sub_frame o2 df.
Proof.
  intros Ha. destruct (String.eqb act "ALL") eqn:E.
  - exists df. split; [reflexivity|apply sub_frame_refl].
  - apply String.eqb_neq in E. rewrite (getcol_ok _ _ (Ha E)). cbn [mbind res_bind].
    eexists; split; [reflexivity|apply sub_frame_mask].
Qed.

Lemma apply_filters_ok df league lo hi act :
  "date" ∈ columns df ->
  Forall (fun r => raises (ts_of (cell_at r "date")) = false) (rows df) ->
  filter_error df league act = None ->
  exists out, apply_filters py df league lo hi act = Ok out.
Proof.
  intros Hd Hty He. apply filter_error_None in He as (Hl & Ha & Hi).
  unfold apply_filters.
  destruct (league_selection_ok df league Hl) as (o1 & -> & [C1 R1]).
  cbn [mbind res_bind].
  destruct (action_selection_ok o1 act) as (o2 & -> & [C2 R2]);
    [rewrite C1; exact Ha|].
  cbn [mbind res_bind].
  rewrite getcol_ok by (rewrite C2, C1; exact Hd). cbn [mbind res_bind].
  destruct (traverse_no_raise ts_of ((fun r => cell_at r "date") <$> rows o2)) as [ds Hds].
  { apply Forall_fmap, Forall_forall. intros r Hr. rewrite Forall_forall in Hty.
    apply Hty, R1, R2, Hr. }
  rewrite Hds. cbn [mbind res_bind].
  destruct (sort_values_rows (df_mask o2 (in_range lo hi <$> ds)) ["date"; "dia_id"])
    as (out & Hout & _).
  { cbn [columns df_mask]. rewrite C2, C1. repeat constructor; assumption. }
  exists out. exact Hout.
Qed.





End FilterOutcomes.

(** X4: what the filter returns satisfies the selection.  Whenever
    [apply_filters] returns, the frame has the labels of its input, every
    returned row is a row of the input whose league is the selected one
    (unless the selector is "ALL"), whose uppercased action is the selected
    one (unless "ALL") and whose date parsed and lies in
    [date_from, date_to], both ends included; the rows are in ascending
    order of (date, dia_id). *)
Theorem apply_filters_returns_selected (py : Python) (df : DataFrame)
    (league : string) (date_from date_to : Z) (cb_action : string) (out : DataFrame) :
  apply_filters py df league date_from date_to cb_action = Ok out ->
  columns out = columns df /\
  (forall r, r ∈ rows out ->
     r ∈ rows df /\
     (league <> "ALL" -> cell_at r "league" = CStr league) /\
     (cb_action <> "ALL" -> str_upper py (cell_at r "cb_action") = cb_action) /\
     exists d, cell_at r "date" = CDate d /\ date_from <= d <= date_to) /\
  StronglySorted (row_le ["date"; "dia_id"]) (rows out) /\
  (length (rows out) <= length (rows df))%nat.
Proof.
  intros H. destruct (apply_filters_exact py _ _ _ _ _ _ H) as (Hc & _ & _ & _ & _ & Hr).
  split; [exact Hc|]. split; [|split].
  - intros r Hin. rewrite Hr in Hin.
    rewrite (sort_by_perm (row_cmp ["date"; "dia_id"])) in Hin.
    apply list_elem_of_filter in Hin as [Hs Hin].
    split; [exact Hin|]. apply (selected_true py), Hs.
  - rewrite Hr. apply (sort_by_sorted (row_cmp ["date"; "dia_id"])), row_cmp_preorder.
  - rewrite Hr. rewrite (sort_by_perm (row_cmp ["date"; "dia_id"])).
    apply length_filter.
Qed.


(** X6: filtering again with the same selection changes nothing. *)
Theorem apply_filters_idempotent (py : Python) (df : DataFrame)
    (league : string) (date_from date_to : Z) (cb_action : string) (out : DataFrame) :
  apply_filters py df league date_from date_to cb_action = Ok out ->
  apply_filters py out league date_from date_to cb_action = Ok out.
Proof.
  intros H.
  destruct (apply_filters_exact py _ _ _ _ _ _ H) as (Hc & Hd & Hi & Hl & Ha & Hr).
  assert (Hsel : Forall (fun r => selected py league date_from date_to cb_action r = true)
                   (rows out)).
  { apply Forall_forall. intros r Hin. rewrite Hr in Hin.
    rewrite (sort_by_perm (row_cmp ["date"; "dia_id"])) in Hin.
    apply list_elem_of_filter in Hin as [Hs _]. exact Hs. }
  assert (Hsorted : StronglySorted (row_le ["date"; "dia_id"]) (rows out)).
  { rewrite Hr. apply (sort_by_sorted (row_cmp ["date"; "dia_id"])), row_cmp_preorder. }
  destruct (apply_filters_ok py out league date_from date_to cb_action) as [out' Hout'].
  - rewrite Hc. exact Hd.
  - eapply Forall_impl; [exact Hsel|]. intros r Hs.
    apply (selected_true py) in Hs as (_ & _ & d & -> & _). reflexivity.
  - unfold filter_error. rewrite Hc.
    destruct (String.eqb league "ALL") eqn:E1; cbn.
    + destruct (String.eqb cb_action "ALL") eqn:E2; cbn.
      * rewrite bool_decide_eq_true_2 by exact Hi. reflexivity.
      * apply String.eqb_neq in E2. rewrite (bool_decide_eq_true_2 _ (Ha E2)). cbn.
        rewrite bool_decide_eq_true_2 by exact Hi. reflexivity.
    + apply String.eqb_neq in E1. rewrite (bool_decide_eq_true_2 _ (Hl E1)). cbn.
      destruct (String.eqb cb_action "ALL") eqn:E2; cbn.
      * rewrite bool_decide_eq_true_2 by exact Hi. reflexivity.
      * apply String.eqb_neq in E2. rewrite (bool_decide_eq_true_2 _ (Ha E2)). cbn.
        rewrite bool_decide_eq_true_2 by exact Hi. reflexivity.
  - rewrite Hout'. f_equal.
    destruct (apply_filters_exact py _ _ _ _ _ _ Hout') as (Hc' & _ & _ & _ & _ & Hr').
    rewrite (filter_all_true _ _ Hsel) in Hr'.
    pose proof (sort_by_sorted_id (row_cmp ["date"; "dia_id"]) _ Hsorted) as Hid.
    change (leb_of (row_cmp ["date"; "dia_id"])) with (row_leb ["date"; "dia_id"]) in Hid.
    rewrite Hid in Hr'.
    destruct out as [co ro], out' as [co' ro']. cbn in *. congruence.
Qed.

(** X7: the sort is stable.  The returned rows that share a (date, dia_id)
    key are in the order in which the input frame lists them. *)
Theorem apply_filters_stable (py : Python) (df : DataFrame)
    (league : string) (date_from date_to : Z) (cb_action : string) (out : DataFrame)
    (r0 : gmap string cell) :
  apply_filters py df league date_from date_to cb_action = Ok out ->
  filter (fun r => same_sort_key r0 r = true) (rows out)
  = filter (fun r => same_sort_key r0 r = true)
      (filter (fun r => selected py league date_from date_to cb_action r = true) (rows df)).
Proof.
  intros H.
  destruct (apply_filters_exact py _ _ _ _ _ _ H) as (_ & _ & _ & _ & _ & ->).
  apply (sort_by_stable (row_cmp ["date"; "dia_id"]) (row_cmp_preorder ["date"; "dia_id"]) r0).
Qed.

(** X8: the action selector is compared as given.  A selector other than
    "ALL" that is not in upper case matches no row, whatever the frame. *)
Theorem apply_filters_lower_case_selector (py : Python) (df : DataFrame)
    (league : string) (date_from date_to : Z) (cb_action : string) (out : DataFrame) :
  apply_filters py df league date_from date_to cb_action = Ok out ->
  cb_action <> "ALL" ->
  upper cb_action <> cb_action ->
  rows out = [].
Proof.
  intros H Hne Hup.
  destruct (apply_filters_exact py _ _ _ _ _ _ H) as (_ & _ & _ & _ & _ & Hr).
  destruct (rows out) as [|r l] eqn:E; [reflexivity|]. exfalso.
  assert (Hin : r ∈ r :: l) by constructor.
  rewrite Hr, (sort_by_perm (row_cmp ["date"; "dia_id"])) in Hin.
  apply list_elem_of_filter in Hin as [Hs _].
  apply (selected_true py) in Hs as (_ & Ha & _).
  apply Hup. rewrite <- (Ha Hne). unfold str_upper. apply upper_idem.
Qed.

(** ** The loader, record by record *)

Lemma Forall2_fmap_self {A B} (R : A -> B -> Prop) (f : A -> B) (l : list A) :
  (forall x, R x (f x)) -> Forall2 R l (f <$> l).
Proof.
  intros H. induction l as [|x l IH]; [constructor|].
  rewrite fmap_cons. constructor; [apply H|exact IH].
Qed.


Lemma frame_of_columns (rs : list (gmap string cell)) c :
  c ∈ columns (frame_of rs) <-> Exists (fun r => is_Some (r !! c)) rs.
Proof.
  unfold frame_of; cbn [columns]. rewrite elem_of_union_list, Exists_exists. split.
  - intros (X & HX & Hc). apply list_elem_of_fmap in HX as (r & -> & Hr).
    exists r. split; [exact Hr|]. apply elem_of_dom. exact Hc.
  - intros (r & Hr & Hc). exists (dom r). split.
    + apply list_elem_of_fmap. eauto.
    + apply elem_of_dom. exact Hc.
Qed.

Section LoaderRows.

Context (py : Python).

Lemma coerce_numeric_rows df c :
  rows (coerce_numeric py df c)
  = (fun r => if decide (c ∈ columns df)
              then <[c := to_numeric py (cell_at r c)]> r else r) <$> rows df.
Proof.
  unfold coerce_numeric. destruct (decide (c ∈ columns df)).
  - apply (setcol_rows df c (fun r => to_numeric py (cell_at r c))).
  - symmetry. apply list_fmap_id.
Qed.

Lemma coerce_all_rows (cs : list string) : forall df,
  NoDup cs ->
  Forall2 (coerced py (columns df) cs) (rows df)
          (rows (fold_left (coerce_numeric py) cs df)).
Proof.
  induction cs as [|c0 cs IH]; intros df Hnd; cbn [fold_left].
  - apply Forall2_same_length_lookup_2; [reflexivity|].
    intros i r r' H1 H2. assert (r = r') as <- by congruence.
    split; [intros c Hc; inversion Hc|reflexivity].
  - apply NoDup_cons in Hnd as [Hc0 Hnd].
    specialize (IH (coerce_numeric py df c0) Hnd).
    assert (Hstep : Forall2 (coerced py (columns df) [c0]) (rows df)
                      (rows (coerce_numeric py df c0))).
    { rewrite coerce_numeric_rows. apply Forall2_fmap_self. intros r.
      destruct (decide (c0 ∈ columns df)) as [Hin|Hout]; split.
      - intros c Hc _. apply list_elem_of_singleton in Hc as ->.
        apply lookup_insert_eq.
      - intros c [Hc|Hc].
        + apply lookup_insert_ne. intros ->. apply Hc. constructor.
        + apply lookup_insert_ne. intros ->. contradiction.
      - intros c Hc Hcol. apply list_elem_of_singleton in Hc as ->. contradiction.
      - reflexivity. }
    eapply Forall2_trans; [|exact Hstep|exact IH].
    intros r r' r'' [A1 A2] [B1 B2]. split.
    + intros c Hc Hcol. apply elem_of_cons in Hc as [->|Hc].
      * rewrite B2 by (left; exact Hc0). apply A1; [constructor|exact Hcol].
      * rewrite B1; [|exact Hc|apply coerce_numeric_columns; exact Hcol].
        unfold cell_at. rewrite A2; [reflexivity|].
        left. intros Hin. apply list_elem_of_singleton in Hin as ->. contradiction.
    + intros c Hc.
      assert (Hc' : c ∉ cs \/ c ∉ columns (coerce_numeric py df c0)).
      { destruct Hc as [Hc|Hc].
        - left. intros Hin. apply Hc. right. exact Hin.
        - right. intros Hin. apply Hc. apply coerce_numeric_columns in Hin. exact Hin. }
      rewrite (B2 c Hc').
      destruct (decide (c = c0)) as [->|Hne].
      * apply A2. destruct Hc as [Hc|Hc]; [exfalso; apply Hc; constructor|right; exact Hc].
      * apply A2. left. intros Hin. apply list_elem_of_singleton in Hin. contradiction.
Qed.


Lemma inserted_id_columns (docs : list (string * gmap string cell)) c :
  Exists (fun r : gmap string cell => is_Some (r !! c))
         ((fun d => <["_doc_id" := CStr d.1]> d.2) <$> docs)
  <-> (c = "_doc_id" /\ docs <> []) \/ Exists (fun d => is_Some (d.2 !! c)) docs.
Proof.
  rewrite !Exists_exists. split.
  - intros (r & Hr & Hc). apply list_elem_of_fmap in Hr as (d & -> & Hd).
    destruct (decide (c = "_doc_id")) as [->|Hne].
    + left. split; [reflexivity|]. intros ->. inversion Hd.
    + right. exists d. split; [exact Hd|].
      rewrite lookup_insert_ne in Hc by congruence. exact Hc.
  - intros [[-> Hne]|(d & Hd & Hc)].
    + destruct docs as [|d docs]; [contradiction Hne; reflexivity|].
      exists (<["_doc_id" := CStr d.1]> d.2). split; [rewrite fmap_cons; constructor|].
      rewrite lookup_insert_eq. eauto.
    + exists (<["_doc_id" := CStr d.1]> d.2). split.
      * apply list_elem_of_fmap. eauto.
      * destruct (decide (c = "_doc_id")) as [->|Hne].
        -- rewrite lookup_insert_eq. eauto.
        -- rewrite lookup_insert_ne by congruence. exact Hc.
Qed.

Lemma numeric_columns_NoDup : NoDup numeric_columns.
Proof.
  unfold numeric_columns. repeat (apply NoDup_cons; split; [not_listed|]).
  apply NoDup_nil_2.
Qed.


End LoaderRows.

(** X1: the loader needs a date field somewhere.  It returns a frame with
    one row per document as soon as one document has a date field, and
    raises KeyError('date') when none has, in particular on an empty
    collection. *)
Theorem fetch_df_needs_a_date (py : Python) (docs : list (string * gmap string cell)) :
  (Exists (fun d => is_Some (d.2 !! "date")) docs ->
     exists df, fetch_df py docs = Ok df /\ length (rows df) = length docs) /\
  (Forall (fun d => d.2 !! "date" = None) docs ->
     fetch_df py docs = Raise (KeyError "date")) /\
  fetch_df py [] = Raise (KeyError "date").
Proof.
  split; [|split].
  - intros Hex. unfold fetch_df.
    set (rs := (fun d : string * gmap string cell => <["_doc_id" := CStr d.1]> d.2) <$> docs).
    assert (Hin : "date" ∈ columns (frame_of rs)).
    { apply frame_of_columns, inserted_id_columns. right. exact Hex. }
    rewrite (getcol_ok _ _ Hin). cbn [mbind res_bind].
    eexists. split; [reflexivity|].
    change (rows (frame_of rs)) with rs. rewrite <- list_fmap_compose.
    set (df1 := setcol (frame_of rs) "date" _).
    assert (L1 : length (rows df1) = length docs).
    { unfold df1. rewrite setcol_rows. change (rows (frame_of rs)) with rs.
      unfold rs. rewrite !length_fmap. reflexivity. }
    clearbody df1.
    rewrite <- L1. symmetry.
    apply (Forall2_length _ _ _ (coerce_all_rows py numeric_columns df1 numeric_columns_NoDup)).
  - intros Hall. unfold fetch_df.
    rewrite getcol_missing; [reflexivity|].
    intros Hin. apply frame_of_columns, inserted_id_columns in Hin as [[Hne _]|Hex].
    + discriminate Hne.
    + apply Exists_exists in Hex as (d & Hd & [v Hv]).
      rewrite Forall_forall in Hall. rewrite (Hall d Hd) in Hv. discriminate Hv.
  - reflexivity.
Qed.


(** X3: the types the loader leaves behind.  In the returned frame no row
    has a field outside the labels, every date cell is a timestamp or NaT,
    and every cell of the four settlement columns is a number or NaN. *)
Theorem fetch_df_normalises_types (py : Python)
    (docs : list (string * gmap string cell)) (df : DataFrame) :
  fetch_df py docs = Ok df ->
  Forall (fun r : gmap string cell =>
    dom r ⊆ columns df /\
    (cell_at r "date" = CNaT \/ exists d, cell_at r "date" = CDate d) /\
    (forall c, c ∈ numeric_columns ->
       cell_at r c = CNaN \/ exists q, cell_at r c = CNum q)) (rows df).
Proof.
  intros H. apply Forall_forall. intros r Hr.
  destruct (fetch_df_loaded _ _ _ H) as [Hwf _ Hdt Hnum].
  unfold wf, col_all in *. rewrite Forall_forall in Hwf, Hdt.
  split; [apply Hwf, Hr|]. split.
  - specialize (Hdt r Hr). destruct (cell_at r "date"); try discriminate Hdt; eauto.
  - intros c Hc. rewrite Forall_forall in Hnum. specialize (Hnum c Hc).
    unfold col_all in Hnum. rewrite Forall_forall in Hnum. specialize (Hnum r Hr).
    destruct (cell_at r c); try discriminate Hnum; eauto.
Qed.

(** ** The range of dates of the sidebar *)

Lemma fold_min_in (l : list Z) : forall a,
  fold_left Z.min l a = a \/ fold_left Z.min l a ∈ l.
Proof.
  induction l as [|x l IH]; intros a; cbn [fold_left]; [left; reflexivity|].
  destruct (IH (Z.min a x)) as [E|Hin].
  - rewrite E. destruct (Z.min_spec a x) as [[_ ->]|[_ ->]];
      [left; reflexivity|right; constructor].
  - right. constructor. exact Hin.
Qed.

Lemma fold_max_in (l : list Z) : forall a,
  fold_left Z.max l a = a \/ fold_left Z.max l a ∈ l.
Proof.
  induction l as [|x l IH]; intros a; cbn [fold_left]; [left; reflexivity|].
  destruct (IH (Z.max a x)) as [E|Hin].
  - rewrite E. destruct (Z.max_spec a x) as [[_ ->]|[_ ->]];
      [right; constructor|left; reflexivity].
  - right. constructor. exact Hin.
Qed.

Lemma Zmin_list_in l lo : Zmin_list l = Some lo -> lo ∈ l.
Proof.
  destruct l as [|a l]; [discriminate|]. intros [= <-].
  destruct (fold_min_in l a) as [->|H]; [constructor|constructor; exact H].
Qed.

Lemma Zmax_list_in l hi : Zmax_list l = Some hi -> hi ∈ l.
Proof.
  destruct l as [|a l]; [discriminate|]. intros [= <-].
  destruct (fold_max_in l a) as [->|H]; [constructor|constructor; exact H].
Qed.

Lemma column_date_row (rs : list (gmap string cell)) d :
  d ∈ omap id (ts_opt <$> ((fun r => cell_at r "date") <$> rs)) ->
  exists r, r ∈ rs /\ cell_at r "date" = CDate d.
Proof.
  intros H. apply list_elem_of_omap in H as (o & Ho & E). cbn in E. subst o.
  apply list_elem_of_fmap in Ho as (c & Hc & Hin).
  apply list_elem_of_fmap in Hin as (r & -> & Hr).
  exists r. split; [exact Hr|].
  destruct (cell_at r "date"); try discriminate Hc. cbn in Hc. congruence.
Qed.

(** X9: the range of the date pickers (lines 77-78) on a loaded frame.
    Both bounds exist as soon as one date parsed; they are dates of the
    frame, the minimum is not after the maximum, and every parsed date
    lies between them.  When no date parsed, both are NaT. *)
Theorem date_range_of_loaded (py : Python)
    (docs : list (string * gmap string cell)) (df : DataFrame) :
  fetch_df py docs = Ok df ->
  exists lo hi,
    min_date df = Ok lo /\ max_date df = Ok hi /\
    match lo, hi with
    | Some l, Some h =>
        l <= h /\
        (exists r, r ∈ rows df /\ cell_at r "date" = CDate l) /\
        (exists r, r ∈ rows df /\ cell_at r "date" = CDate h) /\
        (forall r d, r ∈ rows df -> cell_at r "date" = CDate d -> l <= d <= h)
    | None, None => forall r, r ∈ rows df -> cell_at r "date" = CNaT
    | _, _ => False
    end.
Proof.
  intros H. destruct (fetch_df_loaded _ _ _ H) as [_ Hd Hty _].
  unfold min_date, max_date. rewrite (getcol_ok _ _ Hd). cbn [mbind res_bind].
  rewrite traverse_ts_of by (apply Forall_fmap; exact Hty). cbn [mbind res_bind].
  set (ds := omap id (ts_opt <$> ((fun r => cell_at r "date") <$> rows df))).
  eexists _, _. split; [reflexivity|]. split; [reflexivity|].
  destruct (Zmin_list ds) as [l|] eqn:El; destruct (Zmax_list ds) as [h|] eqn:Eh.
  - pose proof (Zmin_list_in _ _ El) as Hl. pose proof (Zmax_list_in _ _ Eh) as Hh.
    pose proof (Zmin_list_le _ _ El) as Ll. pose proof (Zmax_list_ge _ _ Eh) as Lh.
    rewrite Forall_forall in Ll, Lh.
    split; [apply Ll, Hh|]. split; [apply column_date_row, Hl|].
    split; [apply column_date_row, Hh|].
    intros r d Hr E. pose proof (dates_of_column _ _ _ Hr E) as Hin.
    split; [apply Ll, Hin|apply Lh, Hin].
  - destruct ds; [discriminate El|discriminate Eh].
  - destruct ds; [discriminate Eh|discriminate El].
  - intros r Hr. unfold col_all in Hty. rewrite Forall_forall in Hty.
    specialize (Hty r Hr).
    destruct (cell_at r "date") as [| |b|q|s|d] eqn:E; try discriminate Hty;
      [reflexivity|].
    pose proof (dates_of_column _ _ _ Hr E) as Hin. fold ds in Hin.
    destruct ds; [inversion Hin|discriminate El].
Qed.

(** ** Counts: matches, bets, the crosstab and the hit rate *)

Lemma length_filter_split {A} (p : A -> bool) (l : list A) :
  length l = (length (filter (fun x => p x = true) l)
              + length (filter (fun x => p x = false) l))%nat.
Proof.
  induction l as [|x l IH]; [reflexivity|].
  rewrite !filter_cons. destruct (p x) eqn:E.
  - rewrite decide_True by reflexivity. rewrite decide_False by discriminate.
    cbn [length]. rewrite IH. reflexivity.
  - rewrite decide_False by discriminate. rewrite decide_True by reflexivity.
    cbn [length]. rewrite IH. lia.
Qed.

(** X10: bets and matches.  The filtered frame keeps its rows when it gets
    its flag; the bets are the rows whose action is not "NO_BET", so the
    number of bets never exceeds the number of matches and the difference
    is the number of "NO_BET" rows. *)
Theorem bets_and_matches (py : Python) (df_f f' b : DataFrame) :
  derive py df_f = Ok (f', b) ->
  matches f' = length (rows df_f) /\
  (bets b <= matches f')%nat /\
  matches f' = (bets b
                + length (filter (fun r => str_upper py (cell_at r "cb_action") = "NO_BET")
                                 (rows df_f)))%nat.
Proof.
  intros H. apply derive_inv in H as (_ & _ & Hrf & _ & Hrb).
  unfold matches, bets. rewrite Hrf, Hrb, !length_fmap.
  rewrite (length_filter_split (fun r => is_bet py (cell_at r "cb_action")) (rows df_f)).
  assert (E : filter (fun r => is_bet py (cell_at r "cb_action") = false) (rows df_f)
              = filter (fun r => str_upper py (cell_at r "cb_action") = "NO_BET") (rows df_f)).
  { apply list_filter_iff. intros r. apply is_bet_false_iff. }
  rewrite E. split; [reflexivity|]. split; [lia|reflexivity].
Qed.

Lemma uniq_elem (l : list string) x : x ∈ uniq l <-> x ∈ l.
Proof.
  induction l as [|y l IH]; [reflexivity|].
  cbn [uniq]. destruct (decide (y ∈ l)) as [Hy|Hy].
  - rewrite IH, elem_of_cons. split; [auto|]. intros [->|H]; assumption.
  - rewrite !elem_of_cons, IH. reflexivity.
Qed.

Lemma uniq_NoDup (l : list string) : NoDup (uniq l).
Proof.
  induction l as [|y l IH]; [apply NoDup_nil_2|].
  cbn [uniq]. destruct (decide (y ∈ l)) as [Hy|Hy]; [exact IH|].
  apply NoDup_cons. split; [rewrite uniq_elem; exact Hy|exact IH].
Qed.

Lemma sorted_labels_perm (l : list string) : sort_by str_leb l ≡ₚ l.
Proof. apply (sort_by_perm String.compare). Qed.

Lemma sum_indicator {A} `{EqDecision A} (x : A) (l : list A) :
  NoDup l ->
  sum_list_with (fun y => if decide (x = y) then 1%nat else 0%nat) l
  = if decide (x ∈ l) then 1%nat else 0%nat.
Proof.
  induction 1 as [|y l Hy _ IH]; [reflexivity|].
  cbn [sum_list_with]. rewrite IH.
  destruct (decide (x = y)) as [->|Hne].
  - rewrite (decide_False (P := y ∈ l)) by exact Hy.
    rewrite decide_True by constructor. reflexivity.
  - destruct (decide (x ∈ l)) as [Hin|Hout].
    + rewrite decide_True by (constructor; exact Hin). reflexivity.
    + rewrite decide_False; [reflexivity|].
      intros H. apply elem_of_cons in H as [?|?]; contradiction.
Qed.

Lemma sum_list_with_plus {A} (f g : A -> nat) (l : list A) :
  sum_list_with (fun x => (f x + g x)%nat) l
  = (sum_list_with f l + sum_list_with g l)%nat.
Proof. induction l as [|x l IH]; [reflexivity|]. cbn [sum_list_with]. rewrite IH. lia. Qed.

Lemma sum_list_with_ext_in {A} (f g : A -> nat) (l : list A) :
  (forall x, x ∈ l -> f x = g x) -> sum_list_with f l = sum_list_with g l.
Proof.
  induction l as [|x l IH]; intros H; [reflexivity|].
  cbn [sum_list_with]. rewrite (H x) by constructor.
  rewrite IH; [reflexivity|]. intros y Hy. apply H. constructor. exact Hy.
Qed.

Lemma sum_list_with_zero {A} (f : A -> nat) (l : list A) :
  (forall x, f x = 0%nat) -> sum_list_with f l = 0%nat.
Proof.
  intros H. induction l as [|x l IH]; [reflexivity|].
  cbn [sum_list_with]. rewrite H, IH. reflexivity.
Qed.

Lemma pair_count_nil a r : pair_count [] a r = 0%nat.
Proof. reflexivity. Qed.

Lemma pair_count_cons (p : string * string) ps a r :
  pair_count (p :: ps) a r
  = ((if decide (p = (a, r)) then 1 else 0) + pair_count ps a r)%nat.
Proof.
  unfold pair_count. rewrite filter_cons.
  destruct (decide (p = (a, r))); reflexivity.
Qed.

(** Every pair is counted in exactly one cell of the table. *)
Lemma pair_count_total (I J : list string) (ps : list (string * string)) :
  NoDup I -> NoDup J ->
  Forall (fun p => p.1 ∈ I /\ p.2 ∈ J) ps ->
  sum_list_with (fun a => sum_list_with (fun r => pair_count ps a r) J) I = length ps.
Proof.
  intros HI HJ. induction 1 as [|[pa pr] ps [Ha Hr] _ IH]; cbn [fst snd] in *.
  - apply sum_list_with_zero. intros a. apply sum_list_with_zero.
    intros r. apply pair_count_nil.
  - cbn [length]. rewrite <- IH.
    rewrite (sum_list_with_ext_in _
               (fun a => ((if decide (pa = a) then 1 else 0)
                          + sum_list_with (fun r => pair_count ps a r) J)%nat)).
    + rewrite sum_list_with_plus, (sum_indicator pa I HI).
      rewrite decide_True by exact Ha. reflexivity.
    + intros a _.
      rewrite (sum_list_with_ext_in _
                 (fun r => ((if decide ((pa, pr) = (a, r)) then 1 else 0)
                            + pair_count ps a r)%nat))
        by (intros r _; apply pair_count_cons).
      rewrite sum_list_with_plus. f_equal.
      destruct (decide (pa = a)) as [->|Hne].
      * rewrite (sum_list_with_ext_in _ (fun r => if decide (pr = r) then 1%nat else 0%nat)).
        -- rewrite (sum_indicator pr J HJ). rewrite decide_True by exact Hr. reflexivity.
        -- intros r _. destruct (decide (pr = r)) as [->|N].
           ++ rewrite decide_True by reflexivity. reflexivity.
           ++ rewrite decide_False by congruence. reflexivity.
      * rewrite (sum_list_with_ext_in _ (fun _ => 0%nat)).
        -- apply sum_list_with_zero. reflexivity.
        -- intros r _. rewrite decide_False by congruence. reflexivity.
Qed.

(** The pairs on the diagonal are counted in the cells of the diagonal. *)
Lemma pair_count_diagonal (I : list string) (ps : list (string * string)) :
  NoDup I -> Forall (fun p => p.1 ∈ I) ps ->
  sum_list_with (fun a => pair_count ps a a) I
  = length (filter (fun p => p.1 = p.2) ps).
Proof.
  intros HI. induction 1 as [|[pa pr] ps Ha _ IH]; cbn [fst snd] in *.
  - apply sum_list_with_zero. intros a. apply pair_count_nil.
  - rewrite (sum_list_with_ext_in _
               (fun a => ((if decide ((pa, pr) = (a, a)) then 1 else 0)
                          + pair_count ps a a)%nat))
      by (intros a _; apply pair_count_cons).
    rewrite sum_list_with_plus, IH, filter_cons. cbn [fst snd].
    destruct (decide (pa = pr)) as [->|Hne].
    + rewrite (sum_list_with_ext_in _ (fun a => if decide (pr = a) then 1%nat else 0%nat)).
      * rewrite (sum_indicator pr I HI). rewrite decide_True by exact Ha. reflexivity.
      * intros a _. destruct (decide (pr = a)) as [->|N].
        -- rewrite decide_True by reflexivity. reflexivity.
        -- rewrite decide_False by congruence. reflexivity.
    + rewrite (sum_list_with_ext_in _ (fun _ => 0%nat)).
      * rewrite sum_list_with_zero by reflexivity. reflexivity.
      * intros a _. rewrite decide_False; [reflexivity|].
        intros E. injection E as -> ->. contradiction.
Qed.

Section Crosstab.

Context (py : Python).

Lemma conf_inv b c :
  conf py b = Ok c ->
  "cb_action" ∈ columns b /\ "result" ∈ columns b /\
  c = crosstab (fst ∘ labels py <$> rows b) (snd ∘ labels py <$> rows b).
Proof.
  unfold conf. intros H.
  apply bind_Ok in H as (a & Ha & H). apply bind_Ok in H as (r & Hr & H).
  apply getcol_inv in Ha as [Hca ->]. apply getcol_inv in Hr as [Hcr ->].
  injection H as <-. rewrite <- !list_fmap_compose. auto.
Qed.

Lemma zip_labels (rs : list (gmap string cell)) :
  zip (fst ∘ labels py <$> rs) (snd ∘ labels py <$> rs) = labels py <$> rs.
Proof.
  induction rs as [|r rs IH]; [reflexivity|].
  rewrite !fmap_cons. cbn [zip_with]. rewrite IH. reflexivity.
Qed.

End Crosstab.

Lemma ratio_bounds (n d : nat) :
  (n <= d)%nat -> (0 < d)%nat -> (0 <= ratio n d)%Q /\ (ratio n d <= 1)%Q.
Proof.
  intros Hnd Hd. unfold ratio.
  assert (Hd' : (0 < inject_Z (Z.of_nat d))%Q).
  { change 0%Q with (inject_Z 0). rewrite <- Zlt_Qlt. lia. }
  split.
  - apply Qle_shift_div_l; [exact Hd'|]. rewrite Qmult_0_l.
    change 0%Q with (inject_Z 0). rewrite <- Zle_Qle. lia.
  - apply Qle_shift_div_r; [exact Hd'|]. rewrite Qmult_1_l.
    rewrite <- Zle_Qle. lia.
Qed.

Lemma row_hit_labels py (r : gmap string cell) :
  row_hit py r = true <-> (labels py r).1 = (labels py r).2.
Proof. unfold row_hit, labels. cbn [fst snd]. apply String.eqb_eq. Qed.

Lemma hits_on_diagonal py (rs : list (gmap string cell)) :
  length (filter (fun r => row_hit py r = true) rs)
  = length (filter (fun p => p.1 = p.2) (labels py <$> rs)).
Proof.
  induction rs as [|r rs IH]; [reflexivity|].
  rewrite fmap_cons, !filter_cons.
  destruct (decide (row_hit py r = true)) as [H|H].
  - rewrite decide_True by (apply row_hit_labels; exact H).
    cbn [length]. rewrite IH. reflexivity.
  - rewrite decide_False by (rewrite <- row_hit_labels; exact H). exact IH.
Qed.

Lemma crosstab_index_elem py (rs : list (gmap string cell)) a :
  a ∈ sort_by str_leb (uniq (fst ∘ labels py <$> rs))
  <-> exists r, r ∈ rs /\ (labels py r).1 = a.
Proof.
  rewrite (sorted_labels_perm _), uniq_elem, list_elem_of_fmap.
  split; intros (r & H1 & H2); exists r; [split; [exact H2|symmetry; exact H1]|].
  split; [symmetry; exact H2|exact H1].
Qed.

Lemma crosstab_columns_elem py (rs : list (gmap string cell)) a :
  a ∈ sort_by str_leb (uniq (snd ∘ labels py <$> rs))
  <-> exists r, r ∈ rs /\ (labels py r).2 = a.
Proof.
  rewrite (sorted_labels_perm _), uniq_elem, list_elem_of_fmap.
  split; intros (r & H1 & H2); exists r; [split; [exact H2|symmetry; exact H1]|].
  split; [symmetry; exact H2|exact H1].
Qed.

Lemma crosstab_NoDup (l : list string) : NoDup (sort_by str_leb (uniq l)).
Proof. rewrite (sorted_labels_perm _). apply uniq_NoDup. Qed.

(** X11: the cross table of tab 3 loses no bet.  Its row and column labels
    are without repetition, a label is in the index when it is the action
    of a bet, a cell is the number of bets with that action and that
    result, and the cells add up to the number of bets. *)
Theorem crosstab_counts_every_bet (py : Python) (b : DataFrame) (c : Crosstab) :
  conf py b = Ok c ->
  NoDup (ct_index c) /\ NoDup (ct_columns c) /\
  (forall a, a ∈ ct_index c <-> exists r, r ∈ rows b /\ (labels py r).1 = a) /\
  (forall a, a ∈ ct_columns c <-> exists r, r ∈ rows b /\ (labels py r).2 = a) /\
  (forall a r, ct_count c a r
               = length (filter (fun row => labels py row = (a, r)) (rows b))) /\
  crosstab_total c = bets b.
Proof.
  intros H. apply conf_inv in H as (_ & _ & ->).
  unfold crosstab_total, crosstab. cbn [ct_index ct_columns ct_count].
  rewrite zip_labels.
  split; [apply crosstab_NoDup|]. split; [apply crosstab_NoDup|].
  split; [apply crosstab_index_elem|]. split; [apply crosstab_columns_elem|].
  split.
  - intros a r. unfold pair_count.
    induction (rows b) as [|row rs IH]; [reflexivity|].
    rewrite fmap_cons, !filter_cons.
    destruct (decide (labels py row = (a, r))); cbn [length]; rewrite IH; reflexivity.
  - rewrite pair_count_total; [unfold bets; apply length_fmap|apply crosstab_NoDup..|].
    apply Forall_fmap, Forall_forall. intros r Hr. cbn [compose].
    split; [apply crosstab_index_elem|apply crosstab_columns_elem]; exists r; auto.
Qed.

(** X12: the hit rate is a proportion.  It is undefined exactly on an empty
    frame of bets, and lies between 0 and 1 otherwise. *)
Theorem hit_rate_is_a_proportion (py : Python) (b : DataFrame) (h : option Q) :
  hit_rate py b = Ok h ->
  match h with
  | None => rows b = []
  | Some q => rows b <> [] /\ (0 <= q)%Q /\ (q <= 1)%Q
  end.
Proof.
  intros H. assert (Hc : "cb_action" ∈ columns b /\ "result" ∈ columns b).
  { unfold hit_rate in H. apply bind_Ok in H as (a & Ha & H).
    apply bind_Ok in H as (r & Hr & _).
    apply getcol_inv in Ha as [? _]. apply getcol_inv in Hr as [? _]. auto. }
  destruct Hc as [Ha Hr]. rewrite (hit_rate_ok py b Ha Hr) in H. injection H as <-.
  destruct (rows b) as [|r rs] eqn:E; [reflexivity|].
  rewrite <- E. assert (Hne : rows b <> []) by (rewrite E; discriminate).
  rewrite (mean_bool_ratio _ _ Hne). split; [exact Hne|].
  apply ratio_bounds.
  - apply length_filter.
  - rewrite E. cbn [length]. lia.
Qed.

(** X13: the hit rate is the diagonal of the cross table over the number of
    bets: a bet is a hit when its action and its result carry the same
    label. *)
Theorem hit_rate_is_crosstab_diagonal (py : Python) (b : DataFrame) (c : Crosstab) :
  conf py b = Ok c ->
  hit_rate py b
  = Ok (if decide (rows b = []) then None
        else Some (ratio (crosstab_diagonal c) (bets b))).
Proof.
  intros H. apply conf_inv in H as (Ha & Hr & ->).
  rewrite (hit_rate_ok py b Ha Hr). f_equal.
  destruct (decide (rows b = [])) as [E|Hne]; [rewrite E; reflexivity|].
  rewrite (mean_bool_ratio _ _ Hne). f_equal. unfold bets. f_equal.
  unfold crosstab_diagonal, crosstab. cbn [ct_index ct_count].
  rewrite zip_labels, hits_on_diagonal. symmetry.
  apply pair_count_diagonal; [apply crosstab_NoDup|].
  apply Forall_fmap, Forall_forall. intros r Hin. cbn [compose].
  apply crosstab_index_elem. exists r. auto.
Qed.

(** ** The rollup by league partitions the bets *)

Lemma same_key_refl k : same_key k k = true.
Proof. unfold same_key. rewrite (cmp_refl _ cell_cmp_preorder). reflexivity. Qed.

Lemma same_key_Eq k c : same_key k c = true <-> cell_cmp k c = Eq.
Proof. unfold same_key. destruct (cell_cmp k c); split; congruence. Qed.

Lemma same_key_sym k c : same_key k c = true -> same_key c k = true.
Proof. rewrite !same_key_Eq. apply (cmp_Eq_sym _ cell_cmp_preorder). Qed.

Lemma same_key_trans a b c :
  same_key a b = true -> same_key b c = true -> same_key a c = true.
Proof. rewrite !same_key_Eq. apply (cmp_Eq_trans _ cell_cmp_preorder). Qed.



Lemma filter_none {A} (P : A -> Prop) `{forall x, Decision (P x)} (l : list A) :
  (forall x, x ∈ l -> ~ P x) -> filter P l = [].
Proof.
  induction l as [|x l IH]; intros Hn; [reflexivity|].
  rewrite filter_cons, decide_False by (apply Hn; constructor).
  apply IH. intros y Hy. apply Hn. constructor. exact Hy.
Qed.


Lemma filter_two {A} (P : A -> Prop) `{forall x, Decision (P x)} (l : list A) :
  forall i j x y, l !! i = Some x -> l !! j = Some y -> i <> j -> P x -> P y ->
  (2 <= length (filter P l))%nat.
Proof.
  assert (Hone : forall (l : list A) y, y ∈ l -> P y -> (1 <= length (filter P l))%nat).
  { intros l0 y Hy Py. assert (Hin : y ∈ filter P l0) by (apply list_elem_of_filter; auto).
    destruct (filter P l0); [inversion Hin|cbn [length]; lia]. }
  induction l as [|a l IH]; intros [|i] [|j] x y Hi Hj Hne Px Py;
    try discriminate; try (contradiction Hne; reflexivity); cbn in Hi, Hj.
  - injection Hi as ->. rewrite filter_cons, decide_True by exact Px. cbn [length].
    pose proof (Hone l y (list_elem_of_lookup_2 _ _ _ Hj) Py). lia.
  - injection Hj as ->. rewrite filter_cons, decide_True by exact Py. cbn [length].
    pose proof (Hone l x (list_elem_of_lookup_2 _ _ _ Hi) Px). lia.
  - assert (Hne' : i <> j) by congruence.
    pose proof (IH i j x y Hi Hj Hne' Px Py). rewrite filter_cons.
    destruct (decide (P a)); cbn [length]; lia.
Qed.






Section Partition.

Context {R : Type} (key : R -> cell) (keys : list cell) (rs : list R).
Hypothesis one_key : forall r, r ∈ rs ->
  length (filter (fun k => same_key k (key r) = true) keys) = 1%nat.



End Partition.









(** ** Where the script can stop after the load *)

Section Outcomes.

Context (py : Python).









End Outcomes.



(** ** The options of the sidebar *)

Section Unique.

Context {A : Type} (eqb : A -> A -> bool).
Hypothesis eqb_refl : forall x, eqb x x = true.
Hypothesis eqb_sym : forall x y, eqb x y = true -> eqb y x = true.
Hypothesis eqb_trans : forall x y z, eqb x y = true -> eqb y z = true -> eqb x z = true.

Lemma existsb_false_all (p : A -> bool) (l : list A) :
  existsb p l = false -> forall x, x ∈ l -> p x = false.
Proof.
  intros H x Hx. destruct (p x) eqn:E; [|reflexivity].
  rewrite <- H. symmetry. apply existsb_exists. exists x.
  split; [apply list_elem_of_In; exact Hx|exact E].
Qed.

Lemma unique_from_elem (l : list A) : forall seen k,
  k ∈ unique_from eqb seen l -> k ∈ l /\ forall s, s ∈ seen -> eqb k s = false.
Proof.
  induction l as [|x l IH]; intros seen k H; [inversion H|].
  cbn [unique_from] in H. destruct (existsb (eqb x) seen) eqn:E.
  - destruct (IH _ _ H) as [Hin Hs]. split; [constructor; exact Hin|exact Hs].
  - apply elem_of_cons in H as [->|H].
    + split; [constructor|]. apply existsb_false_all. exact E.
    + destruct (IH _ _ H) as [Hin Hs]. split; [constructor; exact Hin|].
      intros s Hin'. apply Hs. constructor. exact Hin'.
Qed.

Lemma unique_from_seen (l seen : list A) c s :
  s ∈ seen -> eqb s c = true ->
  filter (fun k => eqb k c = true) (unique_from eqb seen l) = [].
Proof.
  intros Hs Hsc. apply filter_none. intros k Hk Hkc.
  apply unique_from_elem in Hk as [_ Hk]. specialize (Hk s Hs).
  rewrite (eqb_trans _ _ _ Hkc (eqb_sym _ _ Hsc)) in Hk. discriminate.
Qed.

Lemma unique_from_one (l : list A) : forall seen c x,
  (forall s, s ∈ seen -> eqb s c = false) -> x ∈ l -> eqb x c = true ->
  length (filter (fun k => eqb k c = true) (unique_from eqb seen l)) = 1%nat.
Proof.
  induction l as [|y l IH]; intros seen c x Hseen Hx Hxc; [inversion Hx|].
  cbn [unique_from]. destruct (existsb (eqb y) seen) eqn:E.
  - apply elem_of_cons in Hx as [->|Hx]; [|exact (IH _ _ _ Hseen Hx Hxc)].
    apply existsb_exists in E as (s & Hs & Hys). apply list_elem_of_In in Hs.
    pose proof (Hseen s Hs) as Hf.
    rewrite (eqb_trans _ _ _ (eqb_sym _ _ Hys) Hxc) in Hf. discriminate.
  - rewrite filter_cons. destruct (decide (eqb y c = true)) as [Hyc|Hyc].
    + cbn [length]. f_equal.
      rewrite (unique_from_seen l (y :: seen) c y); [reflexivity|constructor|exact Hyc].
    + apply elem_of_cons in Hx as [->|Hx]; [contradiction|].
      apply (IH _ _ x); [|exact Hx|exact Hxc].
      intros s Hs. apply elem_of_cons in Hs as [->|Hs]; [|exact (Hseen s Hs)].
      destruct (eqb y c); [contradiction Hyc; reflexivity|reflexivity].
Qed.

Lemma unique_elem (l : list A) k : k ∈ unique eqb l -> k ∈ l.
Proof. intros H. apply unique_from_elem in H as [H _]. exact H. Qed.

Lemma unique_one (l : list A) c :
  c ∈ l -> length (filter (fun k => eqb k c = true) (unique eqb l)) = 1%nat.
Proof.
  intros Hc. apply (unique_from_one l [] c c); [|exact Hc|apply eqb_refl].
  intros s Hs. inversion Hs.
Qed.

End Unique.

Lemma unique_str_elem (l : list string) a : a ∈ unique String.eqb l <-> a ∈ l.
Proof.
  split; [apply unique_elem|]. intros Ha.
  pose proof (unique_one String.eqb String.eqb_refl
                (fun x y H => proj2 (String.eqb_eq y x) (eq_sym (proj1 (String.eqb_eq x y) H)))
                (fun x y z H1 H2 => proj2 (String.eqb_eq x z)
                   (eq_trans (proj1 (String.eqb_eq x y) H1) (proj1 (String.eqb_eq y z) H2)))
                l a Ha) as H.
  destruct (filter (fun k => (k =? a)%string = true) (unique String.eqb l)) as [|k ks] eqn:E;
    [discriminate H|].
  assert (Hk : k ∈ filter (fun k => (k =? a)%string = true) (unique String.eqb l))
    by (rewrite E; constructor).
  apply list_elem_of_filter in Hk as [Hk Hin]. apply String.eqb_eq in Hk. subst k. exact Hin.
Qed.

Lemma unique_str_NoDup (l : list string) : NoDup (unique String.eqb l).
Proof.
  apply NoDup_alt. intros i j x Hi Hj.
  destruct (decide (i = j)) as [E|Hne]; [exact E|exfalso].
  pose proof (unique_one String.eqb String.eqb_refl
                (fun x y H => proj2 (String.eqb_eq y x) (eq_sym (proj1 (String.eqb_eq x y) H)))
                (fun x y z H1 H2 => proj2 (String.eqb_eq x z)
                   (eq_trans (proj1 (String.eqb_eq x y) H1) (proj1 (String.eqb_eq y z) H2)))
                l x (unique_elem _ _ _ (list_elem_of_lookup_2 _ _ _ Hi))) as H1.
  pose proof (filter_two (fun k => (k =? x)%string = true) _ i j x x Hi Hj Hne
                (String.eqb_refl x) (String.eqb_refl x)) as H2.
  lia.
Qed.

(** X16: the options of the action selector.  The list starts with "ALL";
    the rest is in ascending order and without repetition, and holds exactly
    the upper-case labels of the actions that some record carries.  The
    script stops here only when the frame has no [cb_action] column. *)
Theorem action_options_spec (py : Python) (df : DataFrame) :
  match action_options py df with
  | Raise e => e = KeyError "cb_action" /\ "cb_action" ∉ columns df
  | Ok opts =>
      exists tail, opts = "ALL" :: tail /\
        StronglySorted (le_of String.compare) tail /\ NoDup tail /\
        forall a, a ∈ tail <->
          exists r, r ∈ rows df /\ present_at "cb_action" r /\
                    str_upper py (cell_at r "cb_action") = a
  end.
Proof.
  unfold action_options. destruct (decide ("cb_action" ∈ columns df)) as [Hc|Hc].
  2: { rewrite (getcol_missing _ _ Hc). cbn. auto. }
  rewrite (getcol_ok _ _ Hc). cbn [mbind res_bind].
  eexists; split; [reflexivity|]. split; [|split].
  - apply (sort_by_sorted String.compare), string_preorder.
  - rewrite (sort_by_perm String.compare). apply unique_str_NoDup.
  - intros a. rewrite (sort_by_perm String.compare), unique_str_elem, list_elem_of_fmap.
    unfold dropna, present_at. split.
    + intros (c & -> & Hin). apply list_elem_of_filter in Hin as [Hna Hin].
      apply list_elem_of_fmap in Hin as (r & -> & Hr). exists r. auto.
    + intros (r & Hr & Hna & <-). exists (cell_at r "cb_action"). split; [reflexivity|].
      apply list_elem_of_filter. split; [exact Hna|].
      apply list_elem_of_fmap. exists r. auto.
Qed.

Lemma forallb_false_elem {A} (p : A -> bool) (l : list A) :
  forallb p l = false -> exists x, x ∈ l /\ p x = false.
Proof.
  induction l as [|x l IH]; [discriminate|].
  cbn [forallb]. destruct (p x) eqn:E.
  - intros H. destruct (IH H) as (y & Hy & Hp). exists y. split; [constructor; exact Hy|exact Hp].
  - intros _. exists x. split; [constructor|exact E].
Qed.

Lemma present_league_elem (df : DataFrame) k :
  k ∈ unique same_key (dropna ((fun r => cell_at r "league") <$> rows df)) ->
  exists r, r ∈ rows df /\ present_at "league" r /\ cell_at r "league" = k.
Proof.
  intros H. apply unique_elem in H. unfold dropna in H.
  apply list_elem_of_filter in H as [Hna H].
  apply list_elem_of_fmap in H as (r & -> & Hr). exists r. unfold present_at. auto.
Qed.

(** X17: the options of the league selector.  The list starts with "ALL";
    the rest is in ascending order, every option is the league of a record,
    every record with a league is stood for by exactly one option, and the
    options are all of one kind.  The script stops here when the frame has
    no [league] column, and with a TypeError when the leagues of two records
    are of kinds that Python does not compare, such as a text and a
    number. *)
Theorem league_options_spec (df : DataFrame) :
  match league_options df with
  | Raise e =>
      (e = KeyError "league" /\ "league" ∉ columns df) \/
      (e = TypeError /\
       exists r1 r2, r1 ∈ rows df /\ r2 ∈ rows df /\
         present_at "league" r1 /\ present_at "league" r2 /\
         cell_rank (cell_at r1 "league") <> cell_rank (cell_at r2 "league"))
  | Ok opts =>
      exists tail, opts = CStr "ALL" :: tail /\
        StronglySorted (le_of cell_cmp) tail /\
        (forall k, k ∈ tail ->
           exists r, r ∈ rows df /\ present_at "league" r /\ cell_at r "league" = k) /\
        (forall r, r ∈ rows df -> present_at "league" r ->
           length (filter (fun k => same_key k (cell_at r "league") = true) tail) = 1%nat) /\
        (forall k1 k2, k1 ∈ tail -> k2 ∈ tail -> cell_rank k1 = cell_rank k2)
  end.
Proof.
  unfold league_options. destruct (decide ("league" ∈ columns df)) as [Hc|Hc].
  2: { rewrite (getcol_missing _ _ Hc). cbn. auto. }
  rewrite (getcol_ok _ _ Hc). cbn [mbind res_bind].
  set (u := unique same_key (dropna ((fun r => cell_at r "league") <$> rows df))).
  assert (Hu : forall k, k ∈ u ->
            exists r, r ∈ rows df /\ present_at "league" r /\ cell_at r "league" = k)
    by (intros k; apply present_league_elem).
  assert (Hone : forall r, r ∈ rows df -> present_at "league" r ->
            length (filter (fun k => same_key k (cell_at r "league") = true) u) = 1%nat).
  { intros r Hr Hp. apply (unique_one same_key same_key_refl same_key_sym same_key_trans).
    unfold dropna. apply list_elem_of_filter. split; [exact Hp|].
    apply list_elem_of_fmap. exists r. auto. }
  assert (Hsorted :
            StronglySorted (le_of cell_cmp) (sort_by cell_leb u) /\
            (forall k, k ∈ sort_by cell_leb u ->
               exists r, r ∈ rows df /\ present_at "league" r /\ cell_at r "league" = k) /\
            (forall r, r ∈ rows df -> present_at "league" r ->
               length (filter (fun k => same_key k (cell_at r "league") = true)
                         (sort_by cell_leb u)) = 1%nat)).
  { split; [|split].
    - apply (sort_by_sorted cell_cmp), cell_cmp_preorder.
    - intros k Hk. rewrite (sort_by_perm cell_cmp) in Hk. apply Hu, Hk.
    - intros r Hr Hp. rewrite (sort_by_perm cell_cmp). apply Hone; assumption. }
  clearbody u. unfold py_sorted. destruct u as [|x l].
  - cbn [mbind res_bind]. exists (sort_by cell_leb []).
    split; [reflexivity|]. destruct Hsorted as (S1 & S2 & S3).
    repeat split; [exact S1|exact S2|exact S3|].
    intros k1 k2 H1. inversion H1.
  - destruct (forallb (fun y => cell_rank y =? cell_rank x) l) eqn:F; cbn [mbind res_bind].
    + exists (sort_by cell_leb (x :: l)).
      split; [reflexivity|]. destruct Hsorted as (S1 & S2 & S3).
      repeat split; [exact S1|exact S2|exact S3|].
      assert (Hrank : forall k, k ∈ sort_by cell_leb (x :: l) -> cell_rank k = cell_rank x).
      { intros k Hk. rewrite (sort_by_perm cell_cmp) in Hk.
        apply elem_of_cons in Hk as [->|Hk]; [reflexivity|].
        rewrite forallb_forall in F. apply Z.eqb_eq, F, list_elem_of_In, Hk. }
      intros k1 k2 H1 H2. rewrite (Hrank k1 H1), (Hrank k2 H2). reflexivity.
    + right. split; [reflexivity|].
      apply forallb_false_elem in F as (y & Hy & Hr). apply Z.eqb_neq in Hr.
      destruct (Hu y) as (r1 & H1 & P1 & E1); [constructor; exact Hy|].
      destruct (Hu x) as (r2 & H2 & P2 & E2); [constructor|].
      exists r1, r2. rewrite E1, E2. auto 10.
Qed.

(** ** The bankroll tab *)

Lemma zip_dated (rs : list (gmap string cell)) c :
  zip ((fun r => cell_at r "date") <$> rs) ((fun r => cell_at r c) <$> rs) = dated rs c.
Proof.
  unfold dated. induction rs as [|r rs IH]; [reflexivity|].
  rewrite !fmap_cons. cbn [zip_with]. rewrite IH. reflexivity.
Qed.

Lemma series_by_date_ok (df : DataFrame) c :
  "date" ∈ columns df -> c ∈ columns df ->
  series_by_date df c = Ok (dated (rows df) c).
Proof.
  intros Hd Hc. unfold series_by_date.
  rewrite (getcol_ok _ _ Hd), (getcol_ok _ _ Hc). cbn [mbind res_bind].
  rewrite zip_dated. reflexivity.
Qed.

(** X18: the two charts of the bankroll tab.  On the frame that the filter
    and the derivation hand over, the second sort of line 187 changes
    nothing: each chart is the column of the filtered frame against the
    dates, in the order of the frame.  A chart is left out exactly when the
    loaded frame lacks its column, and the tab never stops the script. *)
Theorem bankroll_tab_charts (py : Python) (df : DataFrame) (league : string)
    (date_from date_to : Z) (cb_action : string) (df_f f' b : DataFrame) :
  apply_filters py df league date_from date_to cb_action = Ok df_f ->
  derive py df_f = Ok (f', b) ->
  bankroll_tab f'
  = Ok {| t_bank := if decide ("cb_bank_after" ∈ columns df)
                    then Some (dated (rows f') "cb_bank_after") else None;
          t_drawdown := if decide ("cb_dd_after" ∈ columns df)
                        then Some (dated (rows f') "cb_dd_after") else None |}.
Proof.
  intros Hf Hd.
  pose proof (derived_sorted py _ _ _ _ _ _ _ _ Hf Hd) as Hs.
  apply apply_filters_exact in Hf as (Hcols & Hdate & Hid & _).
  apply derive_inv in Hd as (_ & Hcf & _).
  assert (Hup : forall c, c ∈ columns df -> c ∈ columns f').
  { intros c Hc. rewrite Hcf, elem_of_union, Hcols. auto. }
  assert (Hdown : forall c, c <> "is_bet" -> c ∈ columns f' -> c ∈ columns df).
  { intros c Hne Hc. rewrite Hcf, elem_of_union, elem_of_singleton, Hcols in Hc. tauto. }
  unfold bankroll_tab, sort_values. cbn [traverse].
  rewrite (getcol_ok _ _ (Hup _ Hdate)), (getcol_ok _ _ (Hup _ Hid)).
  cbn [mbind res_bind columns rows].
  pose proof (sort_by_sorted_id (row_cmp ["date"; "dia_id"]) (rows f') Hs) as Hsort.
  change (leb_of (row_cmp ["date"; "dia_id"])) with (row_leb ["date"; "dia_id"]) in Hsort.
  rewrite Hsort.
  assert (Hser : forall c, c <> "is_bet" ->
            (if decide (c ∈ columns f')
             then s ← series_by_date {| columns := columns f'; rows := rows f' |} c; Ok (Some s)
             else Ok None)
            = Ok (if decide (c ∈ columns df) then Some (dated (rows f') c) else None)).
  { intros c Hne. destruct (decide (c ∈ columns df)) as [Hc|Hc].
    - rewrite decide_True by (apply Hup; exact Hc).
      rewrite series_by_date_ok; [reflexivity|apply Hup; exact Hdate|apply Hup; exact Hc].
    - rewrite decide_False; [reflexivity|]. intros Hin. apply Hc, Hdown; assumption. }
  rewrite (Hser "cb_bank_after") by discriminate. cbn [mbind res_bind].
  rewrite (Hser "cb_dd_after") by discriminate. reflexivity.
Qed.

(** ** The further properties on the scenarios *)


Lemma fetch_df_normalises_types_witness :
  Forall (fun r : gmap string cell =>
    dom r ⊆ columns df_three /\
    (cell_at r "date" = CNaT \/ exists d, cell_at r "date" = CDate d) /\
    (forall c, c ∈ numeric_columns ->
       cell_at r c = CNaN \/ exists q, cell_at r c = CNum q)) (rows df_three).
Proof.
  apply (fetch_df_normalises_types scenario_py docs_three df_three).
  vm_compute; reflexivity.
Defined.

Lemma apply_filters_returns_selected_witness :
  columns filtered_league_action = columns df_three_full /\
  (forall r, r ∈ rows filtered_league_action ->
     r ∈ rows df_three_full /\
     ("L1" <> "ALL" -> cell_at r "league" = CStr "L1") /\
     ("H" <> "ALL" -> str_upper scenario_py (cell_at r "cb_action") = "H") /\
     exists d, cell_at r "date" = CDate d /\ 19723 <= d <= 19725) /\
  StronglySorted (row_le ["date"; "dia_id"]) (rows filtered_league_action) /\
  (length (rows filtered_league_action) <= length (rows df_three_full))%nat.
Proof.
  apply (apply_filters_returns_selected scenario_py df_three_full "L1" 19723 19725 "H").
  vm_compute; reflexivity.
Defined.


Lemma apply_filters_idempotent_witness :
  apply_filters scenario_py filtered_three_full "ALL" 19723 19725 "ALL"
  = Ok filtered_three_full.
Proof.
  apply (apply_filters_idempotent scenario_py df_three_full "ALL" 19723 19725 "ALL").
  vm_compute; reflexivity.
Defined.

Lemma apply_filters_stable_witness :
  filter (fun r => same_sort_key key_first_day r = true) (rows filtered_three_full)
  = filter (fun r => same_sort_key key_first_day r = true)
      (filter (fun r => selected scenario_py "ALL" 19723 19725 "ALL" r = true)
              (rows df_three_full)).
Proof.
  apply (apply_filters_stable scenario_py df_three_full "ALL" 19723 19725 "ALL").
  vm_compute; reflexivity.
Defined.

Lemma apply_filters_lower_case_selector_witness :
  rows filtered_lower_case = [].
Proof.
  apply (apply_filters_lower_case_selector scenario_py df_three "ALL" 19723 19725 "h").
  - vm_compute; reflexivity.
  - discriminate.
  - vm_compute. discriminate.
Defined.

Lemma date_range_of_loaded_witness :
  exists lo hi,
    min_date df_three = Ok lo /\ max_date df_three = Ok hi /\
    match lo, hi with
    | Some l, Some h =>
        l <= h /\
        (exists r, r ∈ rows df_three /\ cell_at r "date" = CDate l) /\
        (exists r, r ∈ rows df_three /\ cell_at r "date" = CDate h) /\
        (forall r d, r ∈ rows df_three -> cell_at r "date" = CDate d -> l <= d <= h)
    | None, None => forall r, r ∈ rows df_three -> cell_at r "date" = CNaT
    | _, _ => False
    end.
Proof.
  apply (date_range_of_loaded scenario_py docs_three df_three).
  vm_compute; reflexivity.
Defined.

Lemma bets_and_matches_witness :
  matches derived_three.1 = length (rows filtered_three) /\
  (bets derived_three.2 <= matches derived_three.1)%nat /\
  matches derived_three.1
  = (bets derived_three.2
     + length (filter (fun r => str_upper scenario_py (cell_at r "cb_action") = "NO_BET")
                      (rows filtered_three)))%nat.
Proof.
  apply (bets_and_matches scenario_py filtered_three derived_three.1 derived_three.2).
  vm_compute; reflexivity.
Defined.

Lemma crosstab_counts_every_bet_witness :
  crosstab_total conf_three_full = bets derived_three_full.2.
Proof.
  apply (crosstab_counts_every_bet scenario_py derived_three_full.2 conf_three_full).
  vm_compute; reflexivity.
Defined.

Lemma hit_rate_is_a_proportion_witness :
  match hit_rate_three_full with
  | None => rows derived_three_full.2 = []
  | Some q => rows derived_three_full.2 <> [] /\ (0 <= q)%Q /\ (q <= 1)%Q
  end.
Proof.
  apply (hit_rate_is_a_proportion scenario_py derived_three_full.2 hit_rate_three_full).
  vm_compute; reflexivity.
Defined.

Lemma hit_rate_is_crosstab_diagonal_witness :
  hit_rate scenario_py derived_three_full.2
  = Ok (if decide (rows derived_three_full.2 = []) then None
        else Some (ratio (crosstab_diagonal conf_three_full) (bets derived_three_full.2))).
Proof.
  apply (hit_rate_is_crosstab_diagonal scenario_py derived_three_full.2 conf_three_full).
  vm_compute; reflexivity.
Defined.



Lemma bankroll_tab_charts_witness :
  bankroll_tab derived_three_full.1
  = Ok {| t_bank := if decide ("cb_bank_after" ∈ columns df_three_full)
                    then Some (dated (rows derived_three_full.1) "cb_bank_after") else None;
          t_drawdown := if decide ("cb_dd_after" ∈ columns df_three_full)
                        then Some (dated (rows derived_three_full.1) "cb_dd_after")
                        else None |}.
Proof.
  apply (bankroll_tab_charts scenario_py df_three_full "ALL" 19723 19725 "ALL"
           filtered_three_full derived_three_full.1 derived_three_full.2).
  - vm_compute; reflexivity.
  - vm_compute; reflexivity.
Defined.
